(** * Look-Mtkp: the server-side handlers

    The storefront has three HTTP endpoints, each written twice: once as
    Connect middleware in [vite.config.ts] (dev and preview servers) and,
    for the two swap proxies, once more as standalone function handlers
    under [api/].  This file embeds the handlers and proves their
    request/response contract.

    Conventions of the embedding.
    - A JavaScript string is a [string], read as its sequence of UTF-8 bytes.
    - A handler is a function from the request and the response object it is
      handed to a computation in [io]; the only effect that reaches outside
      the process is [fetch], kept as a node of the computation so that
      "no upstream call" is a statement about its shape.
    - The response object records what the handler writes to it: the status
      code, the headers it sets and the argument of [end]/[send]/[json].
      Headers the platform adds by itself are not part of it.
    - Platform functions whose code is not in the repository ([JSON.parse],
      the [URL] constructor, [createHmac]) are fields of a [Runtime]; every
      theorem holds for all runtimes. *)

From Stdlib Require Import ZArith NArith Ascii String.
From stdpp Require Import base strings gmap list.

Set Warnings "-register-all".
#[local] Open Scope Z_scope.

(** ** JavaScript values, exceptions and completions *)

Inductive value : Type :=
| VUndefined
| VNull
| VBool (b : bool)
| VNumber (lexeme : string)
| VString (s : string)
| VArray (items : list value)
| VObject (props : gmap string value).

(** What a [catch (error)] clause receives.  The handlers only ask whether
    it is an [Error] instance and, if so, for its [message]. *)
Inductive thrown : Type :=
| ErrorInstance (message : string)
| NotAnError.

Inductive completion (A : Type) : Type :=
| Normal (a : A)
| Abrupt (e : thrown).
Arguments Normal {A} a.
Arguments Abrupt {A} e.

(** [!x] for [x : string | undefined]: [undefined] and [''] are falsy.
    [truthy] keeps the string when it passes the test. *)
Definition truthy (x : option string) : option string :=
  match x with
  | Some (String c s) => Some (String c s)
  | _ => None
  end.

Definition js_not (x : option string) : bool :=
  match truthy x with Some _ => false | None => true end.

(** [typeof v === 'string' ? v : undefined] *)
Definition string_or_undefined (v : value) : option string :=
  match v with VString s => Some s | _ => None end.

(** [error instanceof Error ? error.message : fallback] *)
Definition message_or (error : thrown) (fallback : string) : string :=
  match error with ErrorInstance m => m | NotAnError => fallback end.

(** ** The [URL] interface, as far as the handlers read it *)

Record URL : Type := {
  search : string;
  searchParams : list (string * string)
}.

(** [url.searchParams.get(name)]: the first value bound to [name]. *)
Fixpoint searchParams_get (ps : list (string * string)) (name : string) : option string :=
  match ps with
  | [] => None
  | (k, v) :: ps => if bool_decide (k = name) then Some v else searchParams_get ps name
  end.

(** ** Platform functions taken as given *)

Record Runtime : Type := {
  (** [JSON.parse(text)] *)
  JSON_parse : string -> completion value;
  (** [new URL(input, base)] *)
  new_URL : string -> option string -> completion URL;
  (** [createHmac('sha256', key).update(data)], the raw MAC *)
  hmac_sha256 : string -> string -> string;
  (** [.digest('base64')] *)
  base64 : string -> string;
  (** the [TypeError] of reading property [k] of [null] or [undefined] *)
  nullish_read : value -> string -> thrown
}.

(** [v.k] for the property names the handlers use ([url],
    [signedTransaction], [requestId]), none of which is a built-in property
    of strings, arrays or [Object.prototype]. *)
Definition get_property (rt : Runtime) (v : value) (k : string) : completion value :=
  match v with
  | VUndefined | VNull => Abrupt (nullish_read rt v k)
  | VObject props => Normal (default VUndefined (props !! k))
  | _ => Normal VUndefined
  end.

(** ** [JSON.stringify] on objects whose property values are strings *)

Definition dquote : ascii := "034"%char.
Definition backslash : ascii := "092"%char.

Definition hex_digit (n : N) : ascii :=
  ascii_of_N (if (n <? 10)%N then 48 + n else 87 + n)%N.

Definition HEX_digit (n : N) : ascii :=
  ascii_of_N (if (n <? 10)%N then 48 + n else 55 + n)%N.

Definition str1 (c : ascii) : string := String c EmptyString.

(** QuoteJSONString, one code unit *)
Definition json_escape (c : ascii) : string :=
  let n := N_of_ascii c in
  if (n =? 34)%N then String backslash (str1 dquote)
  else if (n =? 92)%N then String backslash (str1 backslash)
  else if (n =? 8)%N then String backslash "b"
  else if (n =? 12)%N then String backslash "f"
  else if (n =? 10)%N then String backslash "n"
  else if (n =? 13)%N then String backslash "r"
  else if (n =? 9)%N then String backslash "t"
  else if (n <? 32)%N then
    String backslash ("u00" +:+ String (hex_digit (n / 16)%N) (str1 (hex_digit (n mod 16)%N)))
  else str1 c.

Fixpoint json_escape_all (s : string) : string :=
  match s with
  | EmptyString => EmptyString
  | String c s => json_escape c +:+ json_escape_all s
  end.

Definition json_quote (s : string) : string :=
  String dquote (json_escape_all s +:+ str1 dquote).

Fixpoint json_members (kvs : list (string * string)) : string :=
  match kvs with
  | [] => ""
  | [(k, v)] => json_quote k +:+ ":" +:+ json_quote v
  | (k, v) :: kvs => json_quote k +:+ ":" +:+ json_quote v +:+ "," +:+ json_members kvs
  end.

Definition JSON_stringify (payload : list (string * string)) : string :=
  "{" +:+ json_members payload +:+ "}".

(** ** [fetch] and the computations that may call it *)

Record RequestInit : Type := {
  init_method : option string;
  init_headers : gmap string string;
  init_body : option string
}.

Record FetchCall : Type := {
  fetch_input : string;
  fetch_init : RequestInit
}.

(** The method [fetch] uses when [init.method] is left out. *)
Definition effective_method (c : FetchCall) : string :=
  default "GET" (init_method (fetch_init c)).

(** A [Response] as the handlers read it: [status], [headers.get(name)]
    (names in lower case) and the outcome of [text()]. *)
Record Response : Type := {
  status : Z;
  response_headers : gmap string string;
  text : completion string
}.

Inductive io (A : Type) : Type :=
| Return (a : A)
| Raise (e : thrown)
| Await (call : FetchCall) (k : completion Response -> io A).
Arguments Return {A} a.
Arguments Raise {A} e.
Arguments Await {A} call k.

Fixpoint io_bind {A B : Type} (f : A -> io B) (m : io A) : io B :=
  match m with
  | Return a => f a
  | Raise e => Raise e
  | Await call k => Await call (fun c => io_bind f (k c))
  end.

#[export] Instance io_mret : MRet io := @Return.
#[export] Instance io_mbind : MBind io := @io_bind.

(** [try { m } catch (error) { h error }] *)
Fixpoint try_catch {A : Type} (m : io A) (h : thrown -> io A) : io A :=
  match m with
  | Return a => Return a
  | Raise e => h e
  | Await call k => Await call (fun c => try_catch (k c) h)
  end.

(** [await p] for a promise that is already settled *)
Definition await {A : Type} (c : completion A) : io A :=
  match c with Normal a => Return a | Abrupt e => Raise e end.

(** [await fetch(input, init)] *)
Definition fetch (input : string) (init : RequestInit) : io Response :=
  Await {| fetch_input := input; fetch_init := init |} await.

(** Running a computation against a network: the completion and the calls
    made, in order. *)
Fixpoint run {A : Type} (net : FetchCall -> completion Response) (m : io A)
  : completion A * list FetchCall :=
  match m with
  | Return a => (Normal a, [])
  | Raise e => (Abrupt e, [])
  | Await call k => let '(c, calls) := run net (k (net call)) in (c, call :: calls)
  end.

(** ** Requests and the response object *)

(** The events of a request body: chunks, then [end] or [error]. *)
Inductive body_events : Type :=
| OnEnd
| OnError (err : thrown)
| OnData (chunk : string) (rest : body_events).

Record IncomingMessage : Type := {
  method : option string;
  url : option string;
  events : body_events
}.

Record ServerResponse : Type := {
  statusCode : Z;
  headers : gmap string string;
  writableEnded : bool;
  body : option string
}.

Definition fresh_response : ServerResponse :=
  {| statusCode := 200; headers := ∅; writableEnded := false; body := None |}.

Definition set_statusCode (code : Z) (res : ServerResponse) : ServerResponse :=
  {| statusCode := code; headers := headers res;
     writableEnded := writableEnded res; body := body res |}.

Definition setHeader (name val : string) (res : ServerResponse) : ServerResponse :=
  {| statusCode := statusCode res; headers := <[name := val]> (headers res);
     writableEnded := writableEnded res; body := body res |}.

(** [res.end(data)]; [res.end()] is [end_ None]. *)
Definition end_ (data : option string) (res : ServerResponse) : ServerResponse :=
  {| statusCode := statusCode res; headers := headers res;
     writableEnded := true; body := data |}.

(** [body || '{}'] *)
Definition or_empty_object (b : string) : string :=
  match b with EmptyString => "{}" | _ => b end.

(** ** vite.config.ts: the dev/preview server middleware *)

Module ViteConfig.

Definition JUPITER_ULTRA_BASE_URL : string := "https://api.jup.ag/ultra/v1".

(** [defineConfig]: where the two credentials come from, [a ?? b] over the
    loaded environment. *)
Definition moonPaySecret (env : gmap string string) : option string :=
  match env !! "MOONPAY_SECRET_KEY" with
  | Some v => Some v
  | None => env !! "VITE_MOONPAY_SECRET_KEY"
  end.

Definition jupiterApiKey (env : gmap string string) : option string :=
  match env !! "JUPITER_ULTRA_API_KEY" with
  | Some v => Some v
  | None => env !! "VITE_JUPITER_ULTRA_API_KEY"
  end.

(** [sendJson(res, status, payload)] *)
Definition sendJson (res : ServerResponse) (st : Z) (payload : list (string * string))
  : ServerResponse :=
  let res := set_statusCode st res in
  let res := setHeader "Content-Type" "application/json" res in
  end_ (Some (JSON_stringify payload)) res.

(** [forwardJupiterResponse(upstream, res)].  [text()] is awaited before
    [res] is touched, so a rejection leaves [res] as it was. *)
Definition forwardJupiterResponse (upstream : Response) (res : ServerResponse)
  : io ServerResponse :=
  body ← await (text upstream);
  let contentType := default "application/json" (response_headers upstream !! "content-type") in
  let res := set_statusCode (status upstream) res in
  let res := setHeader "Content-Type" contentType res in
  mret (end_ (Some (or_empty_object body)) res).

(** [ensureApiKey(res)] inside [registerJupiterUltraEndpoints]: the key when
    it is set and not empty; otherwise the 500 is written to [res]. *)
Definition ensureApiKey (apiKey : option string) (res : ServerResponse)
  : option string * ServerResponse :=
  match truthy apiKey with
  | None =>
      (None, sendJson res 500
         [("error", "Jupiter Ultra API key is not configured on the server. Set JUPITER_ULTRA_API_KEY in your env.")])
  | Some apiKey => (Some apiKey, res)
  end.

Definition requiredParams : list string := ["inputMint"; "outputMint"; "amount"; "taker"].

Section WithRuntime.
Context (rt : Runtime).

(** [readBody(req)]: [data] accumulates the chunks; on [end] an empty
    [data] stands for the empty object, anything else goes to [JSON.parse];
    an [error] event rejects. *)
Fixpoint readBody_on (data : string) (evs : body_events) : completion value :=
  match evs with
  | OnData chunk rest => readBody_on (data +:+ chunk) rest
  | OnEnd =>
      match data with
      | EmptyString => Normal (VObject ∅)
      | _ => JSON_parse rt data
      end
  | OnError err => Abrupt err
  end.

Definition readBody (req : IncomingMessage) : completion value :=
  readBody_on "" (events req).

(** The handler [registerMoonPaySignatureEndpoint] mounts on
    [/api/sign-moonpay]. *)
Definition registerMoonPaySignatureEndpoint (secret : option string)
    (req : IncomingMessage) (res : ServerResponse) : io ServerResponse :=
  if bool_decide (method req ≠ Some "POST") then
    let res := set_statusCode 405 res in
    let res := setHeader "Allow" "POST" res in
    Return (end_ None res)
  else
    match truthy secret with
    | None =>
        let res := set_statusCode 500 res in
        let res := setHeader "Content-Type" "application/json" res in
        Return (end_ (Some (JSON_stringify
          [("error", "MoonPay secret key is not configured on the server.")])) res)
    | Some secret =>
        try_catch
          (body ← await (readBody req);
           body_url ← await (get_property rt body "url");
           let url := string_or_undefined body_url in
           match truthy url with
           | None =>
               let res := set_statusCode 400 res in
               let res := setHeader "Content-Type" "application/json" res in
               Return (end_ (Some (JSON_stringify
                 [("error", "Missing url in MoonPay signature payload.")])) res)
           | Some url =>
               parsed ← await (new_URL rt url None);
               let queryString := search parsed in
               let signature := base64 rt (hmac_sha256 rt secret queryString) in
               let res := set_statusCode 200 res in
               let res := setHeader "Content-Type" "application/json" res in
               Return (end_ (Some (JSON_stringify [("signature", signature)])) res)
           end)
          (fun error =>
             let message := message_or error "MoonPay signature generation failed." in
             let res := set_statusCode 500 res in
             let res := setHeader "Content-Type" "application/json" res in
             Return (end_ (Some (JSON_stringify [("error", message)])) res))
    end.

(** The [for (const param of requiredParams)] loop of the order handler:
    the first parameter whose [searchParams.get] is falsy ends the request
    with a 400; [rest] is what follows the loop. *)
Fixpoint for_requiredParams (u : URL) (res : ServerResponse) (params : list string)
    (rest : io ServerResponse) : io ServerResponse :=
  match params with
  | [] => rest
  | param :: params =>
      if js_not (searchParams_get (searchParams u) param) then
        Return (sendJson res 400 [("error", "Missing required parameter: " +:+ param)])
      else for_requiredParams u res params rest
  end.

(** The handler [registerJupiterUltraEndpoints] mounts on
    [/api/jupiter/order]. *)
Definition registerJupiterUltraEndpoints_order (apiKey : option string)
    (req : IncomingMessage) (res : ServerResponse) : io ServerResponse :=
  if bool_decide (method req ≠ Some "GET") then
    let res := set_statusCode 405 res in
    let res := setHeader "Allow" "GET" res in
    Return (end_ None res)
  else
    match ensureApiKey apiKey res with
    | (None, res) => Return res
    | (Some key, res) =>
        try_catch
          (u ← await (new_URL rt (default "" (url req)) (Some "http://localhost"));
           for_requiredParams u res requiredParams
             (let target := JUPITER_ULTRA_BASE_URL +:+ "/order" +:+ search u in
              upstream ← fetch target
                {| init_method := Some "GET";
                   init_headers := {[ "x-api-key" := key ]};
                   init_body := None |};
              forwardJupiterResponse upstream res))
          (fun error =>
             let message := message_or error "Jupiter order request failed." in
             Return (sendJson res 500 [("error", message)]))
    end.

(** The handler [registerJupiterUltraEndpoints] mounts on
    [/api/jupiter/execute]. *)
Definition registerJupiterUltraEndpoints_execute (apiKey : option string)
    (req : IncomingMessage) (res : ServerResponse) : io ServerResponse :=
  if bool_decide (method req ≠ Some "POST") then
    let res := set_statusCode 405 res in
    let res := setHeader "Allow" "POST" res in
    Return (end_ None res)
  else
    match ensureApiKey apiKey res with
    | (None, res) => Return res
    | (Some key, res) =>
        try_catch
          (body ← await (readBody req);
           body_signedTransaction ← await (get_property rt body "signedTransaction");
           let signedTransaction := string_or_undefined body_signedTransaction in
           body_requestId ← await (get_property rt body "requestId");
           let requestId := string_or_undefined body_requestId in
           match truthy signedTransaction, truthy requestId with
           | Some signedTransaction, Some requestId =>
               upstream ← fetch (JUPITER_ULTRA_BASE_URL +:+ "/execute")
                 {| init_method := Some "POST";
                    init_headers :=
                      <[ "Content-Type" := "application/json" ]> {[ "x-api-key" := key ]};
                    init_body := Some (JSON_stringify
                      [("signedTransaction", signedTransaction); ("requestId", requestId)]) |};
               forwardJupiterResponse upstream res
           | _, _ =>
               Return (sendJson res 400
                 [("error", "signedTransaction and requestId are required in the Jupiter execute payload.")])
           end)
          (fun error =>
             let message := message_or error "Jupiter execute request failed." in
             Return (sendJson res 500 [("error", message)]))
    end.

End WithRuntime.
End ViteConfig.

(** ** The function-handler platform: request, response helpers, query *)

Module Vercel.

(** A value of [req.query]: [string | string[]]. *)
Inductive query_value : Type :=
| QString (s : string)
| QArray (items : list string).

Record VercelRequest : Type := {
  incoming : IncomingMessage;
  query : gmap string query_value;
  body : value
}.

(** [res.status(code)], [res.send(data)], [res.json(payload)] *)
Definition status (code : Z) (res : ServerResponse) : ServerResponse :=
  set_statusCode code res.

Definition send (data : string) (res : ServerResponse) : ServerResponse :=
  end_ (Some data) res.

Definition json (payload : list (string * string)) (res : ServerResponse) : ServerResponse :=
  end_ (Some (JSON_stringify payload)) res.

(** [items.join(sep)] *)
Fixpoint join (sep : string) (items : list string) : string :=
  match items with
  | [] => ""
  | [x] => x
  | x :: items => x +:+ sep +:+ join sep items
  end.

(** [String(v)] for [v : string | string[] | undefined] *)
Definition String_ (v : option query_value) : string :=
  match v with
  | None => "undefined"
  | Some (QString s) => s
  | Some (QArray items) => join "," items
  end.

(** [URLSearchParams.prototype.toString]: the
    application/x-www-form-urlencoded serializer, byte by byte. *)
Definition urlencode_byte (c : ascii) : string :=
  let n := N_of_ascii c in
  if ((48 <=? n) && (n <=? 57) || (65 <=? n) && (n <=? 90) || (97 <=? n) && (n <=? 122)
      || (n =? 42) || (n =? 45) || (n =? 46) || (n =? 95))%N
  then str1 c
  else if (n =? 32)%N then "+"
  else String "%" (String (HEX_digit (n / 16)%N) (str1 (HEX_digit (n mod 16)%N))).

Fixpoint urlencode (s : string) : string :=
  match s with
  | EmptyString => EmptyString
  | String c s => urlencode_byte c +:+ urlencode s
  end.

Definition URLSearchParams_toString (params : list (string * string)) : string :=
  join "&" (map (fun kv => urlencode (fst kv) +:+ "=" +:+ urlencode (snd kv)) params).

End Vercel.

(** ** api/jupiter-order.ts *)

Module ApiJupiterOrder.

Definition JUPITER_ULTRA_BASE_URL : string := "https://api.jup.ag/ultra/v1".

Definition getApiKey (env : gmap string string) : option string :=
  match env !! "JUPITER_ULTRA_API_KEY" with
  | Some v => Some v
  | None => env !! "VITE_JUPITER_ULTRA_API_KEY"
  end.

Definition forwardResponse (upstream : Response) (res : ServerResponse) : io ServerResponse :=
  body ← await (text upstream);
  let contentType := default "application/json" (response_headers upstream !! "content-type") in
  mret (Vercel.send (or_empty_object body) (setHeader "Content-Type" contentType
          (Vercel.status (status upstream) res))).

(** The predicate of [filter]: an array counts as missing when it is empty,
    anything else when it is falsy. *)
Definition is_missing (req : Vercel.VercelRequest) (key : string) : bool :=
  match Vercel.query req !! key with
  | Some (Vercel.QArray items) => bool_decide (length items = 0%nat)
  | Some (Vercel.QString s) => js_not (Some s)
  | None => true
  end.

Definition handler (env : gmap string string) (req : Vercel.VercelRequest) (res : ServerResponse)
  : io ServerResponse :=
  if bool_decide (method (Vercel.incoming req) ≠ Some "GET") then
    let res := setHeader "Allow" "GET" res in
    Return (end_ None (Vercel.status 405 res))
  else
    match truthy (getApiKey env) with
    | None =>
        Return (Vercel.json [("error", "Jupiter Ultra API key missing. Set JUPITER_ULTRA_API_KEY in Vercel env.")]
                  (Vercel.status 500 res))
    | Some apiKey =>
        let inputMint := Vercel.query req !! "inputMint" in
        let outputMint := Vercel.query req !! "outputMint" in
        let amount := Vercel.query req !! "amount" in
        let taker := Vercel.query req !! "taker" in
        let missing :=
          List.filter (is_missing req) ["inputMint"; "outputMint"; "amount"; "taker"] in
        if bool_decide (0 < length missing)%nat then
          Return (Vercel.json [("error", "Missing required parameter(s): " +:+ Vercel.join ", " missing)]
                    (Vercel.status 400 res))
        else
          try_catch
            (let params :=
               [("inputMint", Vercel.String_ inputMint); ("outputMint", Vercel.String_ outputMint);
                ("amount", Vercel.String_ amount); ("taker", Vercel.String_ taker)] in
             let target :=
               JUPITER_ULTRA_BASE_URL +:+ "/order?" +:+ Vercel.URLSearchParams_toString params in
             upstream ← fetch target
               {| init_method := None;
                  init_headers := {[ "x-api-key" := apiKey ]};
                  init_body := None |};
             forwardResponse upstream res)
            (fun error =>
               let message := message_or error "Jupiter order request failed." in
               Return (Vercel.json [("error", message)] (Vercel.status 500 res)))
    end.

End ApiJupiterOrder.

(** ** api/jupiter-execute.ts *)

Module ApiJupiterExecute.

Definition JUPITER_ULTRA_BASE_URL : string := "https://api.jup.ag/ultra/v1".

Definition getApiKey (env : gmap string string) : option string :=
  match env !! "JUPITER_ULTRA_API_KEY" with
  | Some v => Some v
  | None => env !! "VITE_JUPITER_ULTRA_API_KEY"
  end.

Definition forwardResponse (upstream : Response) (res : ServerResponse) : io ServerResponse :=
  body ← await (text upstream);
  let contentType := default "application/json" (response_headers upstream !! "content-type") in
  mret (Vercel.send (or_empty_object body) (setHeader "Content-Type" contentType
          (Vercel.status (status upstream) res))).

Section WithRuntime.
Context (rt : Runtime).

(** [parseBody(req)]: an object (or array) is taken as it is, a string is
    parsed, anything else ([undefined], [null], a number, a boolean) stands
    for the empty object. *)
Definition parseBody (req : Vercel.VercelRequest) : completion value :=
  match Vercel.body req with
  | VObject props => Normal (VObject props)
  | VArray items => Normal (VArray items)
  | VString s => JSON_parse rt s
  | _ => Normal (VObject ∅)
  end.

Definition handler (env : gmap string string) (req : Vercel.VercelRequest) (res : ServerResponse)
  : io ServerResponse :=
  if bool_decide (method (Vercel.incoming req) ≠ Some "POST") then
    let res := setHeader "Allow" "POST" res in
    Return (end_ None (Vercel.status 405 res))
  else
    match truthy (getApiKey env) with
    | None =>
        Return (Vercel.json [("error", "Jupiter Ultra API key missing. Set JUPITER_ULTRA_API_KEY in Vercel env.")]
                  (Vercel.status 500 res))
    | Some apiKey =>
        try_catch
          (body ← await (parseBody req);
           body_signedTransaction ← await (get_property rt body "signedTransaction");
           let signedTransaction := string_or_undefined body_signedTransaction in
           body_requestId ← await (get_property rt body "requestId");
           let requestId := string_or_undefined body_requestId in
           match truthy signedTransaction, truthy requestId with
           | Some signedTransaction, Some requestId =>
               upstream ← fetch (JUPITER_ULTRA_BASE_URL +:+ "/execute")
                 {| init_method := Some "POST";
                    init_headers :=
                      <[ "Content-Type" := "application/json" ]> {[ "x-api-key" := apiKey ]};
                    init_body := Some (JSON_stringify
                      [("signedTransaction", signedTransaction); ("requestId", requestId)]) |};
               forwardResponse upstream res
           | _, _ =>
               Return (Vercel.json [("error", "signedTransaction and requestId are required in the execute payload.")]
                         (Vercel.status 400 res))
           end)
          (fun error =>
             let message := message_or error "Jupiter execute request failed." in
             Return (Vercel.json [("error", message)] (Vercel.status 500 res)))
    end.

End WithRuntime.
End ApiJupiterExecute.

(** ** The five handlers behind the three routes *)

(** [/api/sign-moonpay], [/api/jupiter/order] and [/api/jupiter/execute] as
    the dev server mounts them, and the two function handlers of [api/]. *)
Inductive endpoint : Type :=
| DevSign
| DevOrder
| DevExecute
| FnOrder
| FnExecute.

Definition is_proxy (e : endpoint) : bool :=
  match e with DevSign => false | _ => true end.

Definition accepted_method (e : endpoint) : string :=
  match e with
  | DevOrder | FnOrder => "GET"
  | DevSign | DevExecute | FnExecute => "POST"
  end.

(** The credential an endpoint depends on, as the process environment
    gives it. *)
Definition credential (env : gmap string string) (e : endpoint) : option string :=
  match e with
  | DevSign => ViteConfig.moonPaySecret env
  | DevOrder | DevExecute => ViteConfig.jupiterApiKey env
  | FnOrder => ApiJupiterOrder.getApiKey env
  | FnExecute => ApiJupiterExecute.getApiKey env
  end.

(** One request served on a fresh response object.  The dev middleware sees
    the request as an [IncomingMessage]. *)
Definition serve (rt : Runtime) (env : gmap string string) (e : endpoint)
    (req : Vercel.VercelRequest) : io ServerResponse :=
  match e with
  | DevSign =>
      ViteConfig.registerMoonPaySignatureEndpoint rt (ViteConfig.moonPaySecret env)
        (Vercel.incoming req) fresh_response
  | DevOrder =>
      ViteConfig.registerJupiterUltraEndpoints_order rt (ViteConfig.jupiterApiKey env)
        (Vercel.incoming req) fresh_response
  | DevExecute =>
      ViteConfig.registerJupiterUltraEndpoints_execute rt (ViteConfig.jupiterApiKey env)
        (Vercel.incoming req) fresh_response
  | FnOrder => ApiJupiterOrder.handler env req fresh_response
  | FnExecute => ApiJupiterExecute.handler rt env req fresh_response
  end.

Definition responds {A : Type} (net : FetchCall -> completion Response) (m : io A)
  : completion A := fst (run net m).

Definition upstream_calls {A : Type} (net : FetchCall -> completion Response) (m : io A)
  : list FetchCall := snd (run net m).

(** ** Vocabulary of the statements *)

(** The chunks of a request body, how its stream ended, and the text the
    chunks make up. *)
Fixpoint chunks (evs : body_events) : list string :=
  match evs with
  | OnData chunk rest => chunk :: chunks rest
  | OnEnd | OnError _ => []
  end.

Fixpoint stream_error (evs : body_events) : option thrown :=
  match evs with
  | OnData _ rest => stream_error rest
  | OnEnd => None
  | OnError err => Some err
  end.

Definition body_text (evs : body_events) : string :=
  fold_right String.append "" (chunks evs).

(** [v] has the string [s] under the property [k]. *)
Definition string_field (v : value) (k : string) : option string :=
  match v with
  | VObject props =>
      match props !! k with
      | Some (VString s) => Some s
      | _ => None
      end
  | _ => None
  end.

Definition nullish (v : value) : bool :=
  match v with VUndefined | VNull => true | _ => false end.

(** A query parameter of the parsed request URL is absent or empty. *)
Definition absent_or_empty (u : URL) (param : string) : bool :=
  match searchParams_get (searchParams u) param with
  | None | Some EmptyString => true
  | Some _ => false
  end.

(** The part of a request target from its first question mark on. *)
Fixpoint raw_query (target : string) : string :=
  match target with
  | EmptyString => EmptyString
  | String c rest => if bool_decide (c = "?"%char) then target else raw_query rest
  end.

Fixpoint starts_with (p s : string) : bool :=
  match p, s with
  | EmptyString, _ => true
  | String a p, String b s => bool_decide (a = b) && starts_with p s
  | String _ _, EmptyString => false
  end.

(** [needle] occurs in [hay]. *)
Fixpoint occurs_in (needle hay : string) : bool :=
  starts_with needle hay ||
  match hay with
  | EmptyString => false
  | String _ hay => occurs_in needle hay
  end.

(** JSON text written with apostrophes for its double quotes. *)
Fixpoint dq (s : string) : string :=
  match s with
  | EmptyString => EmptyString
  | String c s => String (if bool_decide (c = "'"%char) then dquote else c) (dq s)
  end.

(** A call with its [x-api-key] header taken out. *)
Definition without_api_key (c : FetchCall) : FetchCall :=
  {| fetch_input := fetch_input c;
     fetch_init :=
       {| init_method := init_method (fetch_init c);
          init_headers := delete "x-api-key" (init_headers (fetch_init c));
          init_body := init_body (fetch_init c) |} |}.

(** ** The answers the handlers give

    The dev middleware sets the content type of its error answers itself;
    the function handlers leave that to [res.json]. *)

Definition error_answer (e : endpoint) (st : Z) (message : string) : ServerResponse :=
  {| statusCode := st;
     headers := match e with
                | FnOrder | FnExecute => ∅
                | DevSign | DevOrder | DevExecute => {[ "Content-Type" := "application/json" ]}
                end;
     writableEnded := true;
     body := Some (JSON_stringify [("error", message)]) |}.

Definition not_configured_message (e : endpoint) : string :=
  match e with
  | DevSign => "MoonPay secret key is not configured on the server."
  | DevOrder | DevExecute =>
      "Jupiter Ultra API key is not configured on the server. Set JUPITER_ULTRA_API_KEY in your env."
  | FnOrder | FnExecute =>
      "Jupiter Ultra API key missing. Set JUPITER_ULTRA_API_KEY in Vercel env."
  end.

(** The message of the [catch] clause when what was thrown is no [Error]. *)
Definition fallback_message (e : endpoint) : string :=
  match e with
  | DevSign => "MoonPay signature generation failed."
  | DevOrder | FnOrder => "Jupiter order request failed."
  | DevExecute | FnExecute => "Jupiter execute request failed."
  end.

Definition caught (e : endpoint) (error : thrown) : ServerResponse :=
  error_answer e 500 (message_or error (fallback_message e)).

(** The upstream response written back: its status, its content type (or
    the default), its body (or the empty object). *)
Definition relayed (upstream : Response) (text_body : string) : ServerResponse :=
  {| statusCode := status upstream;
     headers := {[ "Content-Type" :=
                   default "application/json" (response_headers upstream !! "content-type") ]};
     writableEnded := true;
     body := Some (or_empty_object text_body) |}.

(** What a proxy answers once its upstream call has settled. *)
Definition settled (e : endpoint) (outcome : completion Response) : ServerResponse :=
  match outcome with
  | Normal upstream =>
      match text upstream with
      | Normal text_body => relayed upstream text_body
      | Abrupt error => caught e error
      end
  | Abrupt error => caught e error
  end.

(** The two upstream calls of the execute proxies and of the order
    middleware, for a key. *)
Definition order_call (key target : string) (how : option string) : FetchCall :=
  {| fetch_input := target;
     fetch_init := {| init_method := how;
                      init_headers := {[ "x-api-key" := key ]};
                      init_body := None |} |}.

Definition execute_call (key signedTransaction requestId : string) : FetchCall :=
  {| fetch_input := "https://api.jup.ag/ultra/v1/execute";
     fetch_init :=
       {| init_method := Some "POST";
          init_headers := <[ "Content-Type" := "application/json" ]> {[ "x-api-key" := key ]};
          init_body := Some (JSON_stringify
            [("signedTransaction", signedTransaction); ("requestId", requestId)]) |} |}.

(** Both execute proxies validate the two fields the same way and differ
    in the wording of the 400. *)
Definition execute_400_message (e : endpoint) : string :=
  match e with
  | FnExecute => "signedTransaction and requestId are required in the execute payload."
  | _ => "signedTransaction and requestId are required in the Jupiter execute payload."
  end.

(** The body a proxy validates: what [readBody] or [parseBody] hands over. *)
Definition execute_body (rt : Runtime) (e : endpoint) (req : Vercel.VercelRequest)
  : completion value :=
  match e with
  | FnExecute => ApiJupiterExecute.parseBody rt req
  | _ => ViteConfig.readBody rt (Vercel.incoming req)
  end.

Definition order_params : list string := ["inputMint"; "outputMint"; "amount"; "taker"].

(** A request that validation turns away. *)
Definition fails_validation (rt : Runtime) (e : endpoint) (req : Vercel.VercelRequest) : Prop :=
  match e with
  | DevSign => False
  | DevOrder =>
      ∃ u, new_URL rt (default "" (url (Vercel.incoming req))) (Some "http://localhost") = Normal u
           ∧ ∃ param, param ∈ order_params ∧ absent_or_empty u param = true
  | FnOrder => ∃ param, param ∈ order_params ∧ ApiJupiterOrder.is_missing req param = true
  | DevExecute | FnExecute =>
      ∃ parsed, execute_body rt e req = Normal parsed ∧ nullish parsed = false
                ∧ (truthy (string_field parsed "signedTransaction") = None
                   ∨ truthy (string_field parsed "requestId") = None)
  end.

(** An exception raised inside the [try] block of the signing endpoint:
    by [readBody], by reading [body.url], or by the [URL] constructor. *)
Inductive sign_raises (rt : Runtime) (req : IncomingMessage) : thrown -> Prop :=
| raised_by_readBody error :
    ViteConfig.readBody rt req = Abrupt error → sign_raises rt req error
| raised_by_property parsed error :
    ViteConfig.readBody rt req = Normal parsed →
    get_property rt parsed "url" = Abrupt error → sign_raises rt req error
| raised_by_URL parsed url_text error :
    ViteConfig.readBody rt req = Normal parsed →
    truthy (string_field parsed "url") = Some url_text →
    new_URL rt url_text None = Abrupt error → sign_raises rt req error.

(** ** A runtime for the worked examples

    It tabulates what Node answers on the inputs the examples use.
    [JSON.parse] and [new URL] reject whatever is outside their table; the
    wording of a rejection differs between versions of Node and is not what
    the examples are about.  The MAC and its encoding are symbolic: the
    term names its arguments. *)

Module Sample.

Definition json_table : list (string * value) :=
  [ (dq "{'url':'https://x.example/pay?a=1&b=2'}",
     VObject {[ "url" := VString "https://x.example/pay?a=1&b=2" ]});
    (dq "{'url':'not a url'}", VObject {[ "url" := VString "not a url" ]});
    (dq "{'requestId':'r-1'}", VObject {[ "requestId" := VString "r-1" ]});
    (dq "{'signedTransaction':'AQID','requestId':'r-1','memo':'x'}",
     VObject (<[ "memo" := VString "x" ]>
             (<[ "requestId" := VString "r-1" ]> {[ "signedTransaction" := VString "AQID" ]})));
    ("null", VNull) ].

Fixpoint assoc {A : Type} (k : string) (table : list (string * A)) : option A :=
  match table with
  | [] => None
  | (k', a) :: table => if bool_decide (k' = k) then Some a else assoc k table
  end.

Definition JSON_parse (text : string) : completion value :=
  match assoc text json_table with
  | Some v => Normal v
  | None => Abrupt (ErrorInstance "Unexpected end of JSON input")
  end.

Definition url_table : list (string * (option string * URL)) :=
  [ ("https://x.example/pay?a=1&b=2",
     (None, {| search := "?a=1&b=2"; searchParams := [("a", "1"); ("b", "2")] |}));
    ("/?inputMint=So11&outputMint=EPjF",
     (Some "http://localhost",
      {| search := "?inputMint=So11&outputMint=EPjF";
         searchParams := [("inputMint", "So11"); ("outputMint", "EPjF")] |}));
    ("/?inputMint=So11&outputMint=EPjF&amount=1000&taker=Tk1&slippageBps=50",
     (Some "http://localhost",
      {| search := "?inputMint=So11&outputMint=EPjF&amount=1000&taker=Tk1&slippageBps=50";
         searchParams := [("inputMint", "So11"); ("outputMint", "EPjF"); ("amount", "1000");
                          ("taker", "Tk1"); ("slippageBps", "50")] |})) ].

Definition new_URL (input : string) (base : option string) : completion URL :=
  match assoc input url_table with
  | Some (base', u) =>
      if bool_decide (base' = base) then Normal u else Abrupt (ErrorInstance "Invalid URL")
  | None => Abrupt (ErrorInstance "Invalid URL")
  end.

Definition nullish_read (v : value) (k : string) : thrown :=
  ErrorInstance ("Cannot read properties of " +:+
                 (match v with VUndefined => "undefined" | _ => "null" end) +:+
                 " (reading '" +:+ k +:+ "')").

Definition runtime : Runtime :=
  Build_Runtime JSON_parse new_URL
    (fun key data => "HMAC-SHA256(" +:+ key +:+ "," +:+ data +:+ ")")
    (fun digest => "base64(" +:+ digest +:+ ")")
    nullish_read.

(** The environment of the examples, and one that differs in both
    credentials' names or values. *)
Definition env : gmap string string :=
  <[ "JUPITER_ULTRA_API_KEY" := "sk-test-1" ]> {[ "MOONPAY_SECRET_KEY" := "k" ]}.

Definition other_env : gmap string string :=
  <[ "VITE_JUPITER_ULTRA_API_KEY" := "sk-test-2" ]> {[ "VITE_MOONPAY_SECRET_KEY" := "k" ]}.

Definition request (how target : string) (evs : body_events)
    (query : gmap string Vercel.query_value) (body : value) : Vercel.VercelRequest :=
  Vercel.Build_VercelRequest
    {| method := Some how; url := Some target; events := evs |} query body.

(** A POST whose body arrives in one chunk (none when the text is empty). *)
Definition post (text : string) : Vercel.VercelRequest :=
  request "POST" "/"
    (match text with EmptyString => OnEnd | _ => OnData text OnEnd end) ∅ VUndefined.

(** The scenario of the signing endpoint, its body split over two chunks. *)
Definition sign_request : Vercel.VercelRequest :=
  request "POST" "/"
    (OnData (dq "{'url':'https://x.example/pay") (OnData (dq "?a=1&b=2'}") OnEnd))
    ∅ VUndefined.

(** Order requests as the dev server sees them (mount path stripped) and as
    the function platform does (with [req.query] filled in). *)
Definition two_mints : gmap string Vercel.query_value :=
  <[ "outputMint" := Vercel.QString "EPjF" ]> {[ "inputMint" := Vercel.QString "So11" ]}.

Definition full_query : gmap string Vercel.query_value :=
  <[ "slippageBps" := Vercel.QString "50" ]>
  (<[ "taker" := Vercel.QString "Tk1" ]>
  (<[ "amount" := Vercel.QString "1000" ]> two_mints)).

Definition dev_order_two_mints : Vercel.VercelRequest :=
  request "GET" "/?inputMint=So11&outputMint=EPjF" OnEnd ∅ VUndefined.

Definition dev_order_full : Vercel.VercelRequest :=
  request "GET" "/?inputMint=So11&outputMint=EPjF&amount=1000&taker=Tk1&slippageBps=50"
    OnEnd ∅ VUndefined.


Definition fn_order_full : Vercel.VercelRequest :=
  request "GET"
    "/api/jupiter/order?inputMint=So11&outputMint=EPjF&amount=1000&taker=Tk1&slippageBps=50"
    OnEnd full_query VUndefined.

Definition execute_text : string :=
  dq "{'signedTransaction':'AQID','requestId':'r-1','memo':'x'}".

(** Networks: one that is down, one that answers 502 with an empty body,
    and one whose 401 repeats the key it was sent. *)
Definition offline : FetchCall -> completion Response :=
  fun _ => Abrupt (ErrorInstance "fetch failed").

Definition bad_gateway : Response :=
  {| status := 502; response_headers := ∅; text := Normal "" |}.

Definition unauthorized (call : FetchCall) : Response :=
  {| status := 401;
     response_headers := {[ "content-type" := "text/plain" ]};
     text := Normal ("invalid api key: " +:+
                     default "" (init_headers (fetch_init call) !! "x-api-key")) |}.

End Sample.

(** ** More vocabulary: names of the credentials, counting characters *)

(** The two names a credential is looked up under, in this order. *)
Definition primary_name (e : endpoint) : string :=
  match e with
  | DevSign => "MOONPAY_SECRET_KEY"
  | DevOrder | DevExecute | FnOrder | FnExecute => "JUPITER_ULTRA_API_KEY"
  end.

Definition fallback_name (e : endpoint) : string :=
  match e with
  | DevSign => "VITE_MOONPAY_SECRET_KEY"
  | DevOrder | DevExecute | FnOrder | FnExecute => "VITE_JUPITER_ULTRA_API_KEY"
  end.

(** How often the character [c] occurs in [s]. *)
Fixpoint count_char (c : ascii) (s : string) : nat :=
  match s with
  | EmptyString => 0%nat
  | String c' s => ((if bool_decide (c' = c) then 1 else 0) + count_char c s)%nat
  end.

(** ** src/App.tsx: the client

    The callbacks of [App] that talk to the three endpoints and to the
    wallet SDK.  A callback is a function of the component state it closes
    over; the [set...] calls are applied in order to the state that is
    threaded through, so that a [catch] clause sees what had been set
    before the exception.  [fetch] is the one effect kept as a node of the
    computation; what the browser and the SDKs provide is a [Browser]. *)

Module App.

Definition LOOK_TOKEN_MINT : string := "9223LqDuoJXyhCtvi54DUQPGS8Xf29kUEQRr7Sfhmoon".
Definition USDC_TOKEN_MINT : string := "EPjFWdd5AufqSSqeM2qN1xzybapC8G4wEGGkZwyTDt1v".
Definition DEFAULT_INPUT_MINT : string := USDC_TOKEN_MINT.
Definition DEFAULT_OUTPUT_MINT : string := LOOK_TOKEN_MINT.
Definition DEFAULT_SWAP_AMOUNT : string := "1".

(** [WalletState], [AsyncStatus] ([Failed] is the status ["error"]) and the
    surface selector. *)
Inductive WalletStatus : Type := WalletIdle | WalletLoading | WalletReady | WalletError.

Record WalletState : Type := {
  wallet_status : WalletStatus;
  address : option string;
  wallet_message : option string
}.

Inductive AsyncStatus : Type := Idle | Loading | Success | Failed.

Inductive Surface : Type := Onramp | Swap.

(** The [useState] cells of [App]. *)
Record State : Type := {
  walletState : WalletState;
  activeSurface : Surface;
  swapAmount : string;
  takerAddress : string;
  orderMessage : string;
  orderStatus : AsyncStatus;
  orderQuote : value;
  pendingRequestId : string;
  pendingTransaction : string;
  executeMessage : string;
  executeStatus : AsyncStatus
}.

Definition initial : State :=
  {| walletState := {| wallet_status := WalletIdle; address := None; wallet_message := None |};
     activeSurface := Onramp;
     swapAmount := DEFAULT_SWAP_AMOUNT;
     takerAddress := "";
     orderMessage := "Quote a swap by specifying the base-unit amount and taker.";
     orderStatus := Idle;
     orderQuote := VNull;
     pendingRequestId := "";
     pendingTransaction := "";
     executeMessage := "Awaiting an unsigned transaction from Jupiter Ultra.";
     executeStatus := Idle |}.

Definition setWalletState (v : WalletState) (st : State) : State :=
  {| walletState := v; activeSurface := activeSurface st; swapAmount := swapAmount st;
     takerAddress := takerAddress st; orderMessage := orderMessage st;
     orderStatus := orderStatus st; orderQuote := orderQuote st;
     pendingRequestId := pendingRequestId st; pendingTransaction := pendingTransaction st;
     executeMessage := executeMessage st; executeStatus := executeStatus st |}.

Definition setTakerAddress (v : string) (st : State) : State :=
  {| walletState := walletState st; activeSurface := activeSurface st;
     swapAmount := swapAmount st; takerAddress := v; orderMessage := orderMessage st;
     orderStatus := orderStatus st; orderQuote := orderQuote st;
     pendingRequestId := pendingRequestId st; pendingTransaction := pendingTransaction st;
     executeMessage := executeMessage st; executeStatus := executeStatus st |}.

Definition setOrderMessage (v : string) (st : State) : State :=
  {| walletState := walletState st; activeSurface := activeSurface st;
     swapAmount := swapAmount st; takerAddress := takerAddress st; orderMessage := v;
     orderStatus := orderStatus st; orderQuote := orderQuote st;
     pendingRequestId := pendingRequestId st; pendingTransaction := pendingTransaction st;
     executeMessage := executeMessage st; executeStatus := executeStatus st |}.

Definition setOrderStatus (v : AsyncStatus) (st : State) : State :=
  {| walletState := walletState st; activeSurface := activeSurface st;
     swapAmount := swapAmount st; takerAddress := takerAddress st;
     orderMessage := orderMessage st; orderStatus := v; orderQuote := orderQuote st;
     pendingRequestId := pendingRequestId st; pendingTransaction := pendingTransaction st;
     executeMessage := executeMessage st; executeStatus := executeStatus st |}.

Definition setOrderQuote (v : value) (st : State) : State :=
  {| walletState := walletState st; activeSurface := activeSurface st;
     swapAmount := swapAmount st; takerAddress := takerAddress st;
     orderMessage := orderMessage st; orderStatus := orderStatus st; orderQuote := v;
     pendingRequestId := pendingRequestId st; pendingTransaction := pendingTransaction st;
     executeMessage := executeMessage st; executeStatus := executeStatus st |}.

Definition setPendingRequestId (v : string) (st : State) : State :=
  {| walletState := walletState st; activeSurface := activeSurface st;
     swapAmount := swapAmount st; takerAddress := takerAddress st;
     orderMessage := orderMessage st; orderStatus := orderStatus st;
     orderQuote := orderQuote st; pendingRequestId := v;
     pendingTransaction := pendingTransaction st;
     executeMessage := executeMessage st; executeStatus := executeStatus st |}.

Definition setPendingTransaction (v : string) (st : State) : State :=
  {| walletState := walletState st; activeSurface := activeSurface st;
     swapAmount := swapAmount st; takerAddress := takerAddress st;
     orderMessage := orderMessage st; orderStatus := orderStatus st;
     orderQuote := orderQuote st; pendingRequestId := pendingRequestId st;
     pendingTransaction := v;
     executeMessage := executeMessage st; executeStatus := executeStatus st |}.

Definition setExecuteMessage (v : string) (st : State) : State :=
  {| walletState := walletState st; activeSurface := activeSurface st;
     swapAmount := swapAmount st; takerAddress := takerAddress st;
     orderMessage := orderMessage st; orderStatus := orderStatus st;
     orderQuote := orderQuote st; pendingRequestId := pendingRequestId st;
     pendingTransaction := pendingTransaction st;
     executeMessage := v; executeStatus := executeStatus st |}.

Definition setExecuteStatus (v : AsyncStatus) (st : State) : State :=
  {| walletState := walletState st; activeSurface := activeSurface st;
     swapAmount := swapAmount st; takerAddress := takerAddress st;
     orderMessage := orderMessage st; orderStatus := orderStatus st;
     orderQuote := orderQuote st; pendingRequestId := pendingRequestId st;
     pendingTransaction := pendingTransaction st;
     executeMessage := executeMessage st; executeStatus := v |}.

(** What [getWallet] resolves to: [status] and the optional [wallet] with
    its optional [solAddress]. *)
Record WalletResponse : Type := {
  response_status : string;
  wallet_solAddress : option (option string)
}.

(** What the browser and the two SDKs provide.  [MetaKeep] is
    [window.MetaKeep], when the script has loaded, as its constructor
    applied to the application id. *)
Record Browser : Type := {
  atob : string -> completion string;
  btoa : string -> string;
  Transaction : Type;
  deserialize : list Byte.byte -> completion Transaction;
  serialize : Transaction -> completion (list Byte.byte);
  Sdk : Type;
  MetaKeep : option (string -> completion Sdk);
  getWallet : Sdk -> completion WalletResponse;
  (** the transaction object as [signTransaction] leaves it *)
  signTransaction : Sdk -> Transaction -> string -> completion Transaction;
  (** [ToBoolean] of a number, [String(v)] of a value *)
  number_is_truthy : string -> bool;
  ToString : value -> string
}.

(** [response.ok] and [response.json()] *)
Definition ok (response : Response) : bool :=
  (200 <=? status response) && (status response <=? 299).

Definition json (rt : Runtime) (response : Response) : completion value :=
  match text response with
  | Normal body_text => JSON_parse rt body_text
  | Abrupt error => Abrupt error
  end.

(** [binary.charCodeAt(index)] as a byte, 0 past the end. *)
Definition charCodeAt (binary : string) (index : nat) : Byte.byte :=
  match String.get index binary with
  | Some c => byte_of_ascii c
  | None => Byte.x00
  end.

(** The loop of [decodeBase64]: [remaining] iterations are left, the next
    one writes [bytes[index]]. *)
Fixpoint decodeBase64_loop (binary : string) (remaining index : nat) (bytes : list Byte.byte)
  : list Byte.byte :=
  match remaining with
  | O => bytes
  | S remaining =>
      decodeBase64_loop binary remaining (S index) (<[index := charCodeAt binary index]> bytes)
  end.

Definition decodeBase64 (br : Browser) (encoded : string) : completion (list Byte.byte) :=
  match atob br encoded with
  | Abrupt error => Abrupt error
  | Normal binary =>
      let bytes := replicate (String.length binary) Byte.x00 in
      Normal (decodeBase64_loop binary (String.length binary) 0 bytes)
  end.

(** [String.fromCharCode(...Array.from(bytes))]; the limit an engine puts
    on the number of arguments of one call is not part of the model. *)
Fixpoint fromCharCode (bytes : list Byte.byte) : string :=
  match bytes with
  | [] => EmptyString
  | b :: bytes => String (ascii_of_byte b) (fromCharCode bytes)
  end.

Definition encodeBase64 (br : Browser) (bytes : list Byte.byte) : string :=
  btoa br (fromCharCode bytes).

(** A step of a [try] block: an abrupt completion goes to the [catch]
    clause with the state as it is. *)
Definition attempt {A : Type} (c : completion A) (st : State)
    (catch : thrown -> State -> io State) (k : A -> io State) : io State :=
  match c with
  | Normal a => k a
  | Abrupt error => catch error st
  end.

(** [handleWalletRequest] *)
Definition handleWalletRequest (br : Browser) (metaKeepAppId : string) (st : State) : State :=
  let catch (error : thrown) (st : State) : State :=
    let description := message_or error "Unknown MetaKeep error" in
    setWalletState
      {| wallet_status := WalletError; address := None; wallet_message := Some description |} st in
  match MetaKeep br with
  | None => catch (ErrorInstance "MetaKeep SDK is not available. Refresh and retry.") st
  | Some construct =>
      let st := setWalletState
        {| wallet_status := WalletLoading; address := None;
           wallet_message := Some "Securing your wallet session with MetaKeep..." |} st in
      match construct metaKeepAppId with
      | Abrupt error => catch error st
      | Normal sdk =>
          match getWallet br sdk with
          | Abrupt error => catch error st
          | Normal response =>
              match
                (if bool_decide (response_status response ≠ "SUCCESS") then None
                 else truthy (mjoin (wallet_solAddress response)))
              with
              | None => catch (ErrorInstance "MetaKeep did not return a Solana address.") st
              | Some solAddress =>
                  setWalletState
                    {| wallet_status := WalletReady; address := Some solAddress;
                       wallet_message :=
                         Some "Wallet secured. You can proceed with the $LOOK purchase." |} st
              end
          end
      end
  end.

(** The effect that follows [walletState.address]:
    [setTakerAddress(previous => previous || walletState.address || "")]. *)
Definition syncTakerAddress (st : State) : State :=
  match truthy (address (walletState st)) with
  | None => st
  | Some wallet_address =>
      setTakerAddress
        (match truthy (Some (takerAddress st)) with
         | Some previous => previous
         | None => wallet_address
         end) st
  end.

Section WithRuntime.
Context (rt : Runtime) (br : Browser).

(** [ToBoolean(v)] *)
Definition ToBoolean (v : value) : bool :=
  match v with
  | VUndefined | VNull => false
  | VBool b => b
  | VNumber lexeme => number_is_truthy br lexeme
  | VString s => negb (js_not (Some s))
  | VArray _ | VObject _ => true
  end.

(** [signMoonPayUrl(url)]; it has no [catch], a [throw] rejects. *)
Definition signMoonPayUrl (url_text : string) : io value :=
  response ← fetch "/api/sign-moonpay"
    {| init_method := Some "POST";
       init_headers := {[ "Content-Type" := "application/json" ]};
       init_body := Some (JSON_stringify [("url", url_text)]) |};
  if negb (ok response) then
    Raise (ErrorInstance "MoonPay signature endpoint rejected the request.")
  else
    payload ← await (json rt response);
    payload_signature ← await (get_property rt payload "signature");
    if negb (ToBoolean payload_signature) then
      payload_error ← await (get_property rt payload "error");
      Raise (ErrorInstance
               (match payload_error with
                | VUndefined | VNull => "MoonPay signature payload malformed."
                | VString s => s
                | v => ToString br v
                end))
    else Return payload_signature.

(** [handleOrderSubmit] *)
Definition handleOrderSubmit (st : State) : io State :=
  if js_not (Some (swapAmount st)) || js_not (Some (takerAddress st)) then
    let st := setOrderStatus Failed st in
    Return (setOrderMessage "Amount (base units) and taker are required." st)
  else
    let catch (error : thrown) (st : State) : io State :=
      let description := message_or error "Unknown Jupiter error." in
      let st := setOrderStatus Failed st in
      let st := setOrderMessage description st in
      let st := setPendingRequestId "" st in
      Return (setPendingTransaction "" st) in
    let params :=
      Vercel.URLSearchParams_toString
        [("inputMint", DEFAULT_INPUT_MINT); ("outputMint", DEFAULT_OUTPUT_MINT);
         ("amount", swapAmount st); ("taker", takerAddress st)] in
    let st := setOrderStatus Loading st in
    let st := setOrderMessage "Requesting a protected route from Jupiter Ultra..." st in
    Await {| fetch_input := "/api/jupiter/order?" +:+ params;
             fetch_init := {| init_method := None; init_headers := ∅; init_body := None |} |}
      (fun outcome =>
         attempt outcome st catch (fun response =>
         attempt (json rt response) st catch (fun payload =>
         if negb (ok response) then
           attempt (get_property rt payload "error") st catch (fun payload_error =>
           let reason :=
             default "Jupiter order request failed." (string_or_undefined payload_error) in
           catch (ErrorInstance reason) st)
         else
           let st := setOrderQuote payload st in
           attempt (get_property rt payload "requestId") st catch (fun payload_requestId =>
           let nextRequestId := default "" (string_or_undefined payload_requestId) in
           attempt (get_property rt payload "swapTransaction") st catch
             (fun payload_swapTransaction =>
           attempt
             (match string_or_undefined payload_swapTransaction with
              | Some s => Normal s
              | None =>
                  match get_property rt payload "transaction" with
                  | Normal payload_transaction =>
                      Normal (default "" (string_or_undefined payload_transaction))
                  | Abrupt error => Abrupt error
                  end
              end) st catch (fun unsignedTransaction =>
           let st := setPendingRequestId nextRequestId st in
           let st := setPendingTransaction unsignedTransaction st in
           let st := setExecuteStatus Idle st in
           let st := setExecuteMessage
             (if js_not (Some unsignedTransaction)
              then "Route ready. Inspect the JSON payload for serialized data."
              else "Unsigned transaction ready. Sign with MetaKeep to continue.") st in
           let st := setOrderStatus Success st in
           Return (setOrderMessage
             (if js_not (Some nextRequestId)
              then "Route secured. Inspect the JSON payload for serialized data."
              else "Route secured. Request ID " +:+ nextRequestId +:+ " is ready for signing.")
             st))))))).

(** [handleSignAndExecute] *)
Definition handleSignAndExecute (metaKeepAppId : string) (st : State) : io State :=
  if js_not (Some (pendingTransaction st)) || js_not (Some (pendingRequestId st)) then
    let st := setExecuteStatus Failed st in
    Return (setExecuteMessage "Request a route and unsigned transaction before executing." st)
  else if js_not (address (walletState st)) then
    let st := setExecuteStatus Failed st in
    Return (setExecuteMessage "Secure your MetaKeep wallet before signing swaps." st)
  else
    match MetaKeep br with
    | None =>
        let st := setExecuteStatus Failed st in
        Return (setExecuteMessage "MetaKeep SDK unavailable. Refresh and retry." st)
    | Some construct =>
        let catch (error : thrown) (st : State) : io State :=
          let description := message_or error "Unknown Jupiter error." in
          let st := setExecuteStatus Failed st in
          Return (setExecuteMessage description st) in
        let requestId := pendingRequestId st in
        let st := setExecuteStatus Loading st in
        let st := setExecuteMessage "Preparing MetaKeep signature..." st in
        attempt (decodeBase64 br (pendingTransaction st)) st catch (fun transactionBytes =>
        attempt (deserialize br transactionBytes) st catch (fun transaction =>
        attempt (construct metaKeepAppId) st catch (fun sdk =>
        attempt (signTransaction br sdk transaction "Authorize LOOK swap via Jupiter Ultra")
          st catch (fun transaction =>
        let st := setExecuteMessage "Broadcasting signed transaction via Jupiter..." st in
        attempt (serialize br transaction) st catch (fun serialized =>
        let signedBase64 := encodeBase64 br serialized in
        Await {| fetch_input := "/api/jupiter/execute";
                 fetch_init :=
                   {| init_method := Some "POST";
                      init_headers := {[ "Content-Type" := "application/json" ]};
                      init_body := Some (JSON_stringify
                        [("signedTransaction", signedBase64); ("requestId", requestId)]) |} |}
          (fun outcome =>
             attempt outcome st catch (fun response =>
             attempt (json rt response) st catch (fun payload =>
             if negb (ok response) then
               attempt (get_property rt payload "error") st catch (fun payload_error =>
               let reason :=
                 default "Jupiter execute request failed."
                   (string_or_undefined payload_error) in
               catch (ErrorInstance reason) st)
             else
               attempt (get_property rt payload "status") st catch (fun payload_status =>
               let statusLabel := default "Success" (string_or_undefined payload_status) in
               attempt (get_property rt payload "signature") st catch
                 (fun payload_signature =>
               let signature := default "pending" (string_or_undefined payload_signature) in
               let st := setExecuteStatus Success st in
               Return (setExecuteMessage
                         (statusLabel +:+ " · Signature " +:+ signature) st)))))))))))
    end.

(** [handlePrimaryCta] *)
Definition handlePrimaryCta (metaKeepAppId : string) (st : State) : io State :=
  if js_not (Some (pendingTransaction st)) || js_not (Some (pendingRequestId st))
  then handleOrderSubmit st
  else handleSignAndExecute metaKeepAppId st.

End WithRuntime.

(** [isRouteReady] *)
Definition isRouteReady (st : State) : bool :=
  negb (js_not (Some (pendingTransaction st))) && negb (js_not (Some (pendingRequestId st))).

End App.

(** ** Vocabulary for the client *)

(** The call [handleOrderSubmit] makes for an amount and a taker. *)
Definition quote_call (amount taker : string) : FetchCall :=
  {| fetch_input :=
       "/api/jupiter/order?" +:+
       Vercel.URLSearchParams_toString
         [("inputMint", App.DEFAULT_INPUT_MINT); ("outputMint", App.DEFAULT_OUTPUT_MINT);
          ("amount", amount); ("taker", taker)];
     fetch_init := {| init_method := None; init_headers := ∅; init_body := None |} |}.


(** The call [handleSignAndExecute] makes for a signed transaction and a
    request id. *)
Definition execute_request (signedBase64 requestId : string) : FetchCall :=
  {| fetch_input := "/api/jupiter/execute";
     fetch_init :=
       {| init_method := Some "POST";
          init_headers := {[ "Content-Type" := "application/json" ]};
          init_body := Some (JSON_stringify
            [("signedTransaction", signedBase64); ("requestId", requestId)]) |} |}.

(** ** Sample data for the further examples

    As in [Sample]: tables of what the platform answers on the inputs the
    examples use, here for the bodies and targets the client produces. *)

Module ClientSample.

Definition query : string :=
  "?inputMint=EPjFWdd5AufqSSqeM2qN1xzybapC8G4wEGGkZwyTDt1v" +:+
  "&outputMint=9223LqDuoJXyhCtvi54DUQPGS8Xf29kUEQRr7Sfhmoon&amount=1&taker=Tk1".

Definition quote_url : URL :=
  {| search := query;
     searchParams :=
       [("inputMint", "EPjFWdd5AufqSSqeM2qN1xzybapC8G4wEGGkZwyTDt1v");
        ("outputMint", "9223LqDuoJXyhCtvi54DUQPGS8Xf29kUEQRr7Sfhmoon");
        ("amount", "1"); ("taker", "Tk1")] |}.

Definition json_table : list (string * value) :=
  [ (dq "{'url':'https://x.example/pay?a=1&b=2'}",
     VObject {[ "url" := VString "https://x.example/pay?a=1&b=2" ]});
    (dq "{'signature':'base64(HMAC-SHA256(k,?a=1&b=2))'}",
     VObject {[ "signature" := VString "base64(HMAC-SHA256(k,?a=1&b=2))" ]});
    (dq "{'signedTransaction':'AQID','requestId':'r-1'}",
     VObject (<[ "requestId" := VString "r-1" ]> {[ "signedTransaction" := VString "AQID" ]}));
    (dq "{'requestId':'r-1','transaction':'AQID'}",
     VObject (<[ "transaction" := VString "AQID" ]> {[ "requestId" := VString "r-1" ]})) ].

Definition JSON_parse (text : string) : completion value :=
  match Sample.assoc text json_table with
  | Some v => Normal v
  | None => Abrupt (ErrorInstance "Unexpected end of JSON input")
  end.

Definition new_URL (input : string) (base : option string) : completion URL :=
  if bool_decide (input = "/" +:+ query ∧ base = Some "http://localhost") then Normal quote_url
  else Sample.new_URL input base.

Definition runtime : Runtime :=
  Build_Runtime JSON_parse new_URL
    (fun key data => "HMAC-SHA256(" +:+ key +:+ "," +:+ data +:+ ")")
    (fun digest => "base64(" +:+ digest +:+ ")")
    Sample.nullish_read.

(** The three bytes 1, 2, 3 and their base64 text. *)
Definition three_bytes : list Byte.byte := [Byte.x01; Byte.x02; Byte.x03].

Definition browser : App.Browser :=
  {| App.atob := fun encoded =>
       if bool_decide (encoded = "AQID") then Normal (App.fromCharCode three_bytes)
       else Abrupt (ErrorInstance "The string to be decoded is not correctly encoded.");
     App.btoa := fun binary =>
       if bool_decide (binary = App.fromCharCode three_bytes) then "AQID" else "";
     App.Transaction := list Byte.byte;
     App.deserialize := fun bytes => Normal bytes;
     App.serialize := fun transaction => Normal transaction;
     App.Sdk := unit;
     App.MetaKeep := Some (fun _ => Normal tt);
     App.getWallet := fun _ =>
       Normal {| App.response_status := "SUCCESS";
                 App.wallet_solAddress := Some (Some "Tk1") |};
     App.signTransaction := fun _ transaction _ => Normal transaction;
     App.number_is_truthy := fun lexeme => negb (bool_decide (lexeme = "0"));
     App.ToString := fun _ => "[object Object]" |}.

(** The state with a taker typed in, and the one with a route pending and
    the wallet ready. *)
Definition with_taker : App.State := App.setTakerAddress "Tk1" App.initial.

Definition with_route : App.State :=
  App.setWalletState
    {| App.wallet_status := App.WalletReady; App.address := Some "Tk1";
       App.wallet_message := None |}
    (App.setPendingTransaction "AQID" (App.setPendingRequestId "r-1" with_taker)).

(** A quote: 200 with a request id and a transaction. *)
Definition quote_response : Response :=
  {| status := 200;
     response_headers := {[ "content-type" := "application/json" ]};
     text := Normal (dq "{'requestId':'r-1','transaction':'AQID'}") |}.

(** Requests as they reach the server. *)
Definition sign_post : Vercel.VercelRequest :=
  Sample.post (dq "{'url':'https://x.example/pay?a=1&b=2'}").

Definition execute_post : Vercel.VercelRequest :=
  Sample.post (dq "{'signedTransaction':'AQID','requestId':'r-1'}").

Definition quote_get : Vercel.VercelRequest :=
  Sample.request "GET" ("/" +:+ query) OnEnd
    (<[ "taker" := Vercel.QString "Tk1" ]>
     (<[ "amount" := Vercel.QString "1" ]>
      (<[ "outputMint" := Vercel.QString "9223LqDuoJXyhCtvi54DUQPGS8Xf29kUEQRr7Sfhmoon" ]>
       {[ "inputMint" := Vercel.QString "EPjFWdd5AufqSSqeM2qN1xzybapC8G4wEGGkZwyTDt1v" ]})))
    VUndefined.

(** A query whose taker tries to add a parameter, a POST whose stream
    breaks, an environment whose primary key is empty. *)
Definition sly_query : gmap string Vercel.query_value :=
  <[ "taker" := Vercel.QString "Tk1&amount=9#" ]> Sample.full_query.

Definition broken_post : Vercel.VercelRequest :=
  Sample.request "POST" "/"
    (OnData (dq "{'url':") (OnError (ErrorInstance "aborted"))) ∅ VUndefined.

Definition empty_primary : gmap string string :=
  <[ "VITE_JUPITER_ULTRA_API_KEY" := "sk-test-2" ]> {[ "JUPITER_ULTRA_API_KEY" := "" ]}.

End ClientSample.

(** * Proofs *)

(** ** Strings and the small helpers *)

Lemma string_app_cons (c : ascii) (s t : string) : String c s +:+ t = String c (s +:+ t).
Proof. reflexivity. Qed.

Lemma string_app_nil_r (s : string) : s +:+ "" = s.
Proof. induction s as [|c s IH]; [done | by rewrite string_app_cons, IH]. Qed.

Lemma string_app_assoc (a b c : string) : (a +:+ b) +:+ c = a +:+ (b +:+ c).
Proof. induction a as [|x a IH]; [done | by rewrite !string_app_cons, IH]. Qed.

Lemma truthy_nonempty s : s ≠ "" → truthy (Some s) = Some s.
Proof. by destruct s. Qed.

Lemma js_not_absent_or_empty u param :
  js_not (searchParams_get (searchParams u) param) = absent_or_empty u param.
Proof.
  unfold js_not, absent_or_empty.
  by destruct (searchParams_get (searchParams u) param) as [[|c s]|].
Qed.

Lemma get_property_string_field rt v k :
  nullish v = false →
  ∃ f, get_property rt v k = Normal f ∧ string_or_undefined f = string_field v k.
Proof.
  destruct v; simpl; try discriminate; intros _; try (by eexists).
  eexists; split; [done|]. by destruct (props !! k) as [[]|].
Qed.

(** ** The body reader and the parameter loop *)

Lemma readBody_on_spec rt data evs :
  ViteConfig.readBody_on rt data evs =
  match stream_error evs with
  | Some err => Abrupt err
  | None =>
      if bool_decide (data +:+ body_text evs = "") then Normal (VObject ∅)
      else JSON_parse rt (data +:+ body_text evs)
  end.
Proof.
  revert data. induction evs as [| err | chunk rest IH]; intros data; simpl.
  - unfold body_text. simpl. rewrite string_app_nil_r. by destruct data.
  - done.
  - rewrite IH. unfold body_text. simpl. by rewrite string_app_assoc.
Qed.

Lemma readBody_spec rt req :
  ViteConfig.readBody rt req =
  match stream_error (events req) with
  | Some err => Abrupt err
  | None =>
      if bool_decide (body_text (events req) = "") then Normal (VObject ∅)
      else JSON_parse rt (body_text (events req))
  end.
Proof. unfold ViteConfig.readBody. by rewrite readBody_on_spec. Qed.

Lemma for_requiredParams_spec u res params rest :
  ViteConfig.for_requiredParams u res params rest =
  match List.find (absent_or_empty u) params with
  | Some param =>
      Return (ViteConfig.sendJson res 400 [("error", "Missing required parameter: " +:+ param)])
  | None => rest
  end.
Proof.
  induction params as [|p params IH]; simpl; [done|].
  rewrite js_not_absent_or_empty. by destruct (absent_or_empty u p).
Qed.

(** ** Each handler, run against a network *)

Ltac io_unfold :=
  unfold serve, credential,
    ViteConfig.registerMoonPaySignatureEndpoint,
    ViteConfig.registerJupiterUltraEndpoints_order,
    ViteConfig.registerJupiterUltraEndpoints_execute,
    ApiJupiterOrder.handler, ApiJupiterExecute.handler,
    ViteConfig.ensureApiKey, ViteConfig.forwardJupiterResponse,
    ApiJupiterOrder.forwardResponse, ApiJupiterExecute.forwardResponse,
    fetch, mbind, io_mbind, mret, io_mret in *.

Ltac io_step := cbn [try_catch io_bind await run].

Ltac accept_method H :=
  rewrite (bool_decide_eq_false_2 _ (λ ne, ne H)).

Lemma run_wrong_method rt env e req net :
  method (Vercel.incoming req) ≠ Some (accepted_method e) →
  run net (serve rt env e req) =
    (Normal {| statusCode := 405; headers := {[ "Allow" := accepted_method e ]};
               writableEnded := true; body := None |}, []).
Proof.
  intros Hm. destruct e; io_unfold; simpl in Hm;
    rewrite bool_decide_eq_true_2 by done; reflexivity.
Qed.

Lemma run_not_configured rt env e req net :
  method (Vercel.incoming req) = Some (accepted_method e) →
  truthy (credential env e) = None →
  run net (serve rt env e req) = (Normal (error_answer e 500 (not_configured_message e)), []).
Proof.
  intros Hm Hk. destruct e; io_unfold; simpl in Hm; accept_method Hm; by rewrite Hk.
Qed.

Lemma run_dev_sign rt env req net key :
  method (Vercel.incoming req) = Some "POST" →
  truthy (credential env DevSign) = Some key →
  run net (serve rt env DevSign req) =
  (Normal
     match ViteConfig.readBody rt (Vercel.incoming req) with
     | Abrupt error => caught DevSign error
     | Normal parsed =>
         match get_property rt parsed "url" with
         | Abrupt error => caught DevSign error
         | Normal field =>
             match truthy (string_or_undefined field) with
             | None => error_answer DevSign 400 "Missing url in MoonPay signature payload."
             | Some url_text =>
                 match new_URL rt url_text None with
                 | Abrupt error => caught DevSign error
                 | Normal u =>
                     {| statusCode := 200;
                        headers := {[ "Content-Type" := "application/json" ]};
                        writableEnded := true;
                        body := Some (JSON_stringify
                          [("signature", base64 rt (hmac_sha256 rt key (search u)))]) |}
                 end
             end
         end
     end, []).
Proof.
  intros Hm Hk. io_unfold. accept_method Hm. rewrite Hk.
  destruct (ViteConfig.readBody _ _) as [parsed|]; io_step; [|done].
  destruct (get_property rt parsed "url") as [field|]; io_step; [|done].
  destruct (truthy (string_or_undefined field)) as [url_text|]; io_step; [|done].
  by destruct (new_URL rt url_text None).
Qed.

Lemma run_dev_order rt env req net key :
  method (Vercel.incoming req) = Some "GET" →
  truthy (credential env DevOrder) = Some key →
  run net (serve rt env DevOrder req) =
  match new_URL rt (default "" (url (Vercel.incoming req))) (Some "http://localhost") with
  | Abrupt error => (Normal (caught DevOrder error), [])
  | Normal u =>
      match List.find (absent_or_empty u) order_params with
      | Some param =>
          (Normal (error_answer DevOrder 400 ("Missing required parameter: " +:+ param)), [])
      | None =>
          let call :=
            order_call key ("https://api.jup.ag/ultra/v1" +:+ "/order" +:+ search u)
              (Some "GET") in
          (Normal (settled DevOrder (net call)), [call])
      end
  end.
Proof.
  intros Hm Hk. io_unfold. accept_method Hm. rewrite Hk.
  destruct (new_URL rt _ _) as [u|]; io_step; [|done].
  rewrite for_requiredParams_spec.
  change ViteConfig.requiredParams with order_params.
  destruct (List.find _ _); io_step; [done|].
  unfold settled, order_call. destruct (net _) as [upstream|]; io_step; [|done].
  by destruct (text upstream).
Qed.

Lemma run_execute rt env e req net key :
  e = DevExecute ∨ e = FnExecute →
  method (Vercel.incoming req) = Some "POST" →
  truthy (credential env e) = Some key →
  run net (serve rt env e req) =
  match execute_body rt e req with
  | Abrupt error => (Normal (caught e error), [])
  | Normal parsed =>
      match get_property rt parsed "signedTransaction" with
      | Abrupt error => (Normal (caught e error), [])
      | Normal field1 =>
          match get_property rt parsed "requestId" with
          | Abrupt error => (Normal (caught e error), [])
          | Normal field2 =>
              match truthy (string_or_undefined field1), truthy (string_or_undefined field2) with
              | Some signedTransaction, Some requestId =>
                  let call := execute_call key signedTransaction requestId in
                  (Normal (settled e (net call)), [call])
              | _, _ => (Normal (error_answer e 400 (execute_400_message e)), [])
              end
          end
      end
  end.
Proof.
  intros [-> | ->] Hm Hk; io_unfold; accept_method Hm; rewrite Hk; unfold execute_body.
  - destruct (ViteConfig.readBody _ _) as [parsed|]; io_step; [|done].
    destruct (get_property rt parsed "signedTransaction") as [f1|]; io_step; [|done].
    destruct (get_property rt parsed "requestId") as [f2|]; io_step; [|done].
    destruct (truthy (string_or_undefined f1)), (truthy (string_or_undefined f2));
      io_step; try done.
    unfold settled. destruct (net _) as [upstream|]; io_step; [|done].
    by destruct (text upstream).
  - destruct (ApiJupiterExecute.parseBody _ _) as [parsed|]; io_step; [|done].
    destruct (get_property rt parsed "signedTransaction") as [f1|]; io_step; [|done].
    destruct (get_property rt parsed "requestId") as [f2|]; io_step; [|done].
    destruct (truthy (string_or_undefined f1)), (truthy (string_or_undefined f2));
      io_step; try done.
    unfold settled. destruct (net _) as [upstream|]; io_step; [|done].
    by destruct (text upstream).
Qed.

Lemma run_fn_order rt env req net key :
  method (Vercel.incoming req) = Some "GET" →
  truthy (credential env FnOrder) = Some key →
  run net (serve rt env FnOrder req) =
  match List.filter (ApiJupiterOrder.is_missing req) order_params with
  | [] =>
      let call :=
        order_call key
          ("https://api.jup.ag/ultra/v1" +:+ "/order?" +:+
           Vercel.URLSearchParams_toString
             (map (λ param, (param, Vercel.String_ (Vercel.query req !! param))) order_params))
          None in
      (Normal (settled FnOrder (net call)), [call])
  | missing =>
      (Normal (error_answer FnOrder 400
                 ("Missing required parameter(s): " +:+ Vercel.join ", " missing)), [])
  end.
Proof.
  intros Hm Hk. io_unfold. accept_method Hm. rewrite Hk.
  change ["inputMint"; "outputMint"; "amount"; "taker"] with order_params.
  destruct (List.filter _ _) as [|p missing] eqn:Hf.
  - rewrite bool_decide_eq_false_2 by (simpl; lia). io_step.
    unfold settled, order_call. cbn [map order_params].
    destruct (net _) as [upstream|]; io_step; [|done].
    by destruct (text upstream).
  - rewrite bool_decide_eq_true_2 by (simpl; lia). done.
Qed.

(** ** Consequences shared by the claims *)

Lemma string_field_truthy rt parsed k :
  nullish parsed = false →
  ∃ field, get_property rt parsed k = Normal field
           ∧ truthy (string_or_undefined field) = truthy (string_field parsed k).
Proof.
  intros Hn. destruct (get_property_string_field rt parsed k Hn) as (f & Hf & Hs).
  exists f. by rewrite Hs.
Qed.

Lemma string_field_not_nullish parsed k s : string_field parsed k = Some s → nullish parsed = false.
Proof. by destruct parsed. Qed.

(** Every request is answered: no exception leaves a handler. *)
Lemma serve_always_responds rt env e req net :
  ∃ res, responds net (serve rt env e req) = Normal res.
Proof.
  unfold responds.
  destruct (decide (method (Vercel.incoming req) = Some (accepted_method e))) as [Hm|Hm];
    [|rewrite run_wrong_method by done; by eexists].
  destruct (truthy (credential env e)) as [key|] eqn:Hk;
    [|rewrite run_not_configured by done; by eexists].
  destruct e.
  - rewrite (run_dev_sign _ _ _ _ key) by done. by eexists.
  - rewrite (run_dev_order _ _ _ _ key) by done. repeat case_match; by eexists.
  - rewrite (run_execute _ _ _ _ _ key) by auto. repeat case_match; by eexists.
  - rewrite (run_fn_order _ _ _ _ key) by done. repeat case_match; by eexists.
  - rewrite (run_execute _ _ _ _ _ key) by auto. repeat case_match; by eexists.
Qed.

(** A proxy calls upstream at most once, and then answers with what the
    call settled to. *)
Lemma proxy_call_settles rt env e req net call :
  is_proxy e = true →
  call ∈ upstream_calls net (serve rt env e req) →
  upstream_calls net (serve rt env e req) = [call]
  ∧ responds net (serve rt env e req) = Normal (settled e (net call)).
Proof.
  unfold responds, upstream_calls. intros Hp.
  destruct (decide (method (Vercel.incoming req) = Some (accepted_method e))) as [Hm|Hm];
    [|rewrite run_wrong_method by done; by intros ?%elem_of_nil].
  destruct (truthy (credential env e)) as [key|] eqn:Hk;
    [|rewrite run_not_configured by done; by intros ?%elem_of_nil].
  destruct e; try discriminate Hp.
  - rewrite (run_dev_order _ _ _ _ key) by done.
    repeat case_match; cbn [fst snd]; intros Hin;
      try (by apply elem_of_nil in Hin); by apply list_elem_of_singleton in Hin as ->.
  - rewrite (run_execute _ _ _ _ _ key) by auto.
    repeat case_match; cbn [fst snd]; intros Hin;
      try (by apply elem_of_nil in Hin); by apply list_elem_of_singleton in Hin as ->.
  - rewrite (run_fn_order _ _ _ _ key) by done.
    repeat case_match; cbn [fst snd]; intros Hin;
      try (by apply elem_of_nil in Hin); by apply list_elem_of_singleton in Hin as ->.
  - rewrite (run_execute _ _ _ _ _ key) by auto.
    repeat case_match; cbn [fst snd]; intros Hin;
      try (by apply elem_of_nil in Hin); by apply list_elem_of_singleton in Hin as ->.
Qed.

(** * The claims *)

(** C1.  A POST to the signing endpoint whose JSON body carries a string
    [url] that the URL constructor accepts, with a signing secret
    configured, is answered 200 with the body [{signature: s}], where [s] is
    the base64 encoding of the HMAC-SHA256, under the secret, of the [search]
    component of the URL (the query string with its leading question mark).
    No upstream call is made. *)
Theorem sign_returns_signature rt env req net key parsed url_text u :
  method (Vercel.incoming req) = Some "POST" →
  truthy (credential env DevSign) = Some key →
  stream_error (events (Vercel.incoming req)) = None →
  body_text (events (Vercel.incoming req)) ≠ "" →
  JSON_parse rt (body_text (events (Vercel.incoming req))) = Normal parsed →
  string_field parsed "url" = Some url_text →
  url_text ≠ "" →
  new_URL rt url_text None = Normal u →
  run net (serve rt env DevSign req) =
    (Normal {| statusCode := 200;
               headers := {[ "Content-Type" := "application/json" ]};
               writableEnded := true;
               body := Some (JSON_stringify
                 [("signature", base64 rt (hmac_sha256 rt key (search u)))]) |}, []).
Proof.
  intros Hm Hk Hs Ht Hp Hf Hne Hu.
  rewrite (run_dev_sign _ _ _ _ key) by done.
  rewrite readBody_spec, Hs, bool_decide_eq_false_2, Hp by done.
  destruct (string_field_truthy rt parsed "url") as (f & -> & ->);
    [by eapply string_field_not_nullish|].
  by rewrite Hf, truthy_nonempty, Hu.
Qed.

(** C6.  A request whose method is not the one the endpoint accepts is
    answered 405 with an [Allow] header naming that method and no body, and
    no upstream call is made.  Nothing else of the request is looked at:
    under any other runtime, environment and network, a request with the
    same method gets the same answer. *)
Theorem wrong_method_405 rt env e req net :
  method (Vercel.incoming req) ≠ Some (accepted_method e) →
  run net (serve rt env e req) =
    (Normal {| statusCode := 405; headers := {[ "Allow" := accepted_method e ]};
               writableEnded := true; body := None |}, [])
  ∧ ∀ rt' env' req' net',
      method (Vercel.incoming req') = method (Vercel.incoming req) →
      run net' (serve rt' env' e req') = run net (serve rt env e req).
Proof.
  intros Hm. split; [by apply run_wrong_method|].
  intros rt' env' req' net' Hsame.
  rewrite !run_wrong_method; [done | done | by rewrite Hsame].
Qed.


Lemma find_first_absent u param :
  param ∈ order_params → absent_or_empty u param = true →
  ∃ first, List.find (absent_or_empty u) order_params = Some first.
Proof.
  intros Hin Ha. destruct (List.find _ _) as [first|] eqn:Hf; [by eexists|].
  apply list_elem_of_In in Hin.
  by rewrite (List.find_none _ _ Hf param Hin) in Ha.
Qed.

Lemma filter_missing_nonempty req param :
  param ∈ order_params → ApiJupiterOrder.is_missing req param = true →
  List.filter (ApiJupiterOrder.is_missing req) order_params ≠ [].
Proof.
  intros Hin Hmiss Hnil.
  assert (In param (List.filter (ApiJupiterOrder.is_missing req) order_params)) as Hf
    by (apply List.filter_In; split; [by apply list_elem_of_In | done]).
  by rewrite Hnil in Hf.
Qed.

(** With the key in place, a request that fails validation is answered 400
    on the spot. *)
Lemma run_fails_validation rt env e req net key :
  method (Vercel.incoming req) = Some (accepted_method e) →
  truthy (credential env e) = Some key →
  fails_validation rt e req →
  ∃ message, run net (serve rt env e req) = (Normal (error_answer e 400 message), []).
Proof.
  intros Hm Hk Hv. destruct e; cbn [fails_validation] in Hv.
  - done.
  - destruct Hv as (u & Hu & param & Hin & Ha).
    destruct (find_first_absent u param Hin Ha) as [first Hf].
    rewrite (run_dev_order _ _ _ _ key), Hu, Hf by done. by eexists.
  - destruct Hv as (parsed & Hb & Hn & Hmiss).
    rewrite (run_execute _ _ _ _ _ key), Hb by auto.
    destruct (string_field_truthy rt parsed "signedTransaction" Hn) as (f1 & -> & ->).
    destruct (string_field_truthy rt parsed "requestId" Hn) as (f2 & -> & ->).
    destruct Hmiss as [-> | ->]; [|case_match]; by eexists.
  - destruct Hv as (param & Hin & Hmiss).
    rewrite (run_fn_order _ _ _ _ key) by done.
    pose proof (filter_missing_nonempty req param Hin Hmiss).
    destruct (List.filter _ _); [done | by eexists].
  - destruct Hv as (parsed & Hb & Hn & Hmiss).
    rewrite (run_execute _ _ _ _ _ key), Hb by auto.
    destruct (string_field_truthy rt parsed "signedTransaction" Hn) as (f1 & -> & ->).
    destruct (string_field_truthy rt parsed "requestId" Hn) as (f2 & -> & ->).
    destruct Hmiss as [-> | ->]; [|case_match]; by eexists.
Qed.

(** C4.  A request to a proxy that lacks the upstream API key, or that
    validation turns away, causes no upstream call.  Without the key every
    request with the accepted method gets the same 500, whatever its
    parameters or body; with the key a request that fails validation gets
    a 400. *)
Theorem rejected_without_upstream_call rt env e req net :
  is_proxy e = true →
  truthy (credential env e) = None ∨ fails_validation rt e req →
  upstream_calls net (serve rt env e req) = []
  ∧ (method (Vercel.incoming req) = Some (accepted_method e) →
     truthy (credential env e) = None →
     responds net (serve rt env e req)
       = Normal (error_answer e 500 (not_configured_message e)))
  ∧ (method (Vercel.incoming req) = Some (accepted_method e) →
     is_Some (truthy (credential env e)) →
     fails_validation rt e req →
     ∃ res, responds net (serve rt env e req) = Normal res ∧ statusCode res = 400).
Proof.
  intros Hp Hrej. unfold responds, upstream_calls.
  split; [|split].
  - destruct (decide (method (Vercel.incoming req) = Some (accepted_method e))) as [Hm|Hm];
      [|by rewrite run_wrong_method].
    destruct (truthy (credential env e)) as [key|] eqn:Hk;
      [|by rewrite run_not_configured].
    destruct Hrej as [|Hv]; [done|].
    by destruct (run_fails_validation rt env e req net key Hm Hk Hv) as [message ->].
  - intros Hm Hk. by rewrite run_not_configured.
  - intros Hm [key Hk] Hv.
    destruct (run_fails_validation rt env e req net key Hm Hk Hv) as [message ->].
    by eexists.
Qed.

(** C2, amended.  For a POST to the signing endpoint: without a signing
    secret the answer is 500 with the message that the secret is not
    configured; with a secret, a body that is not [null] and whose [url] is
    missing, not a string or empty is answered 400; and every exception
    raised while the body is read, the field is read or the URL is
    constructed, the rejection of an unparseable [url] among them, is
    answered 500 with the exception's message (the fixed fallback when what
    was thrown is no [Error]). *)
Theorem sign_failures rt env req net :
  method (Vercel.incoming req) = Some "POST" →
  (truthy (credential env DevSign) = None →
   run net (serve rt env DevSign req) =
     (Normal (error_answer DevSign 500 "MoonPay secret key is not configured on the server."),
      []))
  ∧ (∀ parsed,
       is_Some (truthy (credential env DevSign)) →
       ViteConfig.readBody rt (Vercel.incoming req) = Normal parsed →
       nullish parsed = false →
       truthy (string_field parsed "url") = None →
       run net (serve rt env DevSign req) =
         (Normal (error_answer DevSign 400 "Missing url in MoonPay signature payload."), []))
  ∧ (∀ error,
       is_Some (truthy (credential env DevSign)) →
       sign_raises rt (Vercel.incoming req) error →
       run net (serve rt env DevSign req) =
         (Normal (error_answer DevSign 500
                    (message_or error "MoonPay signature generation failed.")), [])).
Proof.
  intros Hm. split; [|split].
  - intros Hk. by rewrite run_not_configured.
  - intros parsed [key Hk] Hb Hn Hu.
    rewrite (run_dev_sign _ _ _ _ key), Hb by done.
    destruct (string_field_truthy rt parsed "url" Hn) as (f & -> & ->).
    by rewrite Hu.
  - intros error [key Hk] Hr.
    rewrite (run_dev_sign _ _ _ _ key) by done.
    destruct Hr as [error Hb | parsed error Hb Hp | parsed url_text error Hb Hf Hu].
    + by rewrite Hb.
    + by rewrite Hb, Hp.
    + rewrite Hb.
      assert (nullish parsed = false) as Hn by (by destruct parsed).
      destruct (string_field_truthy rt parsed "url" Hn) as (f & -> & ->).
      by rewrite Hf, Hu.
Qed.


(** C7, amended.  For a valid GET to the quote proxy the one upstream call
    carries the API key in its [x-api-key] header and nowhere else.  The dev
    middleware calls the base URL plus [/order] plus the [search] of the
    parsed request URL, with method GET; the function handler calls the base
    URL plus [/order?] plus the four required parameters re-serialised from
    [req.query], with the default method. *)
Theorem order_upstream_call rt env req net key :
  method (Vercel.incoming req) = Some "GET" →
  (∀ u,
     truthy (credential env DevOrder) = Some key →
     new_URL rt (default "" (url (Vercel.incoming req))) (Some "http://localhost") = Normal u →
     (∀ param, param ∈ order_params → absent_or_empty u param = false) →
     upstream_calls net (serve rt env DevOrder req) =
       [ {| fetch_input := "https://api.jup.ag/ultra/v1/order" +:+ search u;
            fetch_init := {| init_method := Some "GET";
                             init_headers := {[ "x-api-key" := key ]};
                             init_body := None |} |} ])
  ∧ (truthy (credential env FnOrder) = Some key →
     (∀ param, param ∈ order_params → ApiJupiterOrder.is_missing req param = false) →
     ∃ call,
       upstream_calls net (serve rt env FnOrder req) = [call]
       ∧ fetch_input call =
           "https://api.jup.ag/ultra/v1/order?" +:+
           Vercel.URLSearchParams_toString
             [("inputMint", Vercel.String_ (Vercel.query req !! "inputMint"));
              ("outputMint", Vercel.String_ (Vercel.query req !! "outputMint"));
              ("amount", Vercel.String_ (Vercel.query req !! "amount"));
              ("taker", Vercel.String_ (Vercel.query req !! "taker"))]
       ∧ effective_method call = "GET"
       ∧ init_headers (fetch_init call) = {[ "x-api-key" := key ]}
       ∧ init_body (fetch_init call) = None).
Proof.
  intros Hm. unfold upstream_calls. split.
  - intros u Hk Hu Hpresent.
    rewrite (run_dev_order _ _ _ _ key), Hu by done.
    destruct (List.find _ _) as [first|] eqn:Hf; [|done].
    apply List.find_some in Hf as [Hin Ha].
    apply list_elem_of_In in Hin. by rewrite (Hpresent first Hin) in Ha.
  - intros Hk Hpresent.
    rewrite (run_fn_order _ _ _ _ key) by done.
    destruct (List.filter _ _) as [|first missing] eqn:Hf.
    + eexists. split; [done|]. by repeat split.
    + assert (In first (List.filter (ApiJupiterOrder.is_missing req) order_params)) as Hin
        by (rewrite Hf; by left).
      apply List.filter_In in Hin as [Hin Ha].
      apply list_elem_of_In in Hin. by rewrite (Hpresent first Hin) in Ha.
Qed.




Lemma without_api_key_order_call key target how :
  without_api_key (order_call key target how) =
  {| fetch_input := target;
     fetch_init := {| init_method := how; init_headers := ∅; init_body := None |} |}.
Proof.
  unfold without_api_key, order_call. cbn. by rewrite delete_singleton_eq.
Qed.

Lemma without_api_key_execute_call key signedTransaction requestId :
  without_api_key (execute_call key signedTransaction requestId) =
  {| fetch_input := "https://api.jup.ag/ultra/v1/execute";
     fetch_init :=
       {| init_method := Some "POST";
          init_headers := {[ "Content-Type" := "application/json" ]};
          init_body := Some (JSON_stringify
            [("signedTransaction", signedTransaction); ("requestId", requestId)]) |} |}.
Proof.
  unfold without_api_key, execute_call. cbn.
  by rewrite delete_insert_ne, delete_singleton_eq.
Qed.

(** What a proxy does with its key: the run depends on it only through
    the [x-api-key] header of the upstream call. *)
Lemma proxy_run_key_free rt env e req outcome key :
  is_proxy e = true →
  method (Vercel.incoming req) = Some (accepted_method e) →
  truthy (credential env e) = Some key →
  ∃ res calls,
    run (λ _, outcome) (serve rt env e req) = (Normal res, calls)
    ∧ (∀ env' key', truthy (credential env' e) = Some key' →
         ∃ calls', run (λ _, outcome) (serve rt env' e req) = (Normal res, calls')
                   ∧ without_api_key <$> calls' = without_api_key <$> calls)
    ∧ (∀ call, call ∈ calls → init_headers (fetch_init call) !! "x-api-key" = Some key).
Proof.
  intros Hp Hm Hk. destruct e; try discriminate Hp.
  - rewrite (run_dev_order _ _ _ _ key) by done.
    destruct (new_URL _ _ _) as [u|] eqn:Hu;
      [destruct (List.find _ _) as [first|] eqn:Hf|];
      do 2 eexists; (split; [done|split]).
    all: try (intros env' key' Hk'; rewrite (run_dev_order _ _ _ _ key'), Hu, ?Hf by done;
              eexists; split; [done|]; cbn; by rewrite ?without_api_key_order_call).
    all: intros call Hin; try (by apply elem_of_nil in Hin).
    apply list_elem_of_singleton in Hin as ->. cbn. by rewrite lookup_singleton_eq.
  - rewrite (run_execute _ _ _ _ _ key) by auto.
    destruct (execute_body _ _ _) as [parsed|] eqn:Hb;
      [destruct (get_property rt parsed "signedTransaction") as [f1|] eqn:H1;
        [destruct (get_property rt parsed "requestId") as [f2|] eqn:H2;
          [destruct (truthy (string_or_undefined f1)) eqn:T1,
                    (truthy (string_or_undefined f2)) eqn:T2|]|]|];
      do 2 eexists; (split; [done|split]).
    all: try (intros env' key' Hk';
              rewrite (run_execute _ _ _ _ _ key'), Hb, ?H1, ?H2, ?T1, ?T2 by auto;
              eexists; split; [done|]; cbn; by rewrite ?without_api_key_execute_call).
    all: intros call Hin; try (by apply elem_of_nil in Hin).
    apply list_elem_of_singleton in Hin as ->. cbn.
    by rewrite lookup_insert_ne, lookup_singleton_eq.
  - rewrite (run_fn_order _ _ _ _ key) by done.
    destruct (List.filter _ _) as [|first missing] eqn:Hf;
      do 2 eexists; (split; [done|split]).
    all: try (intros env' key' Hk'; rewrite (run_fn_order _ _ _ _ key'), Hf by done;
              eexists; split; [done|]; cbn; by rewrite ?without_api_key_order_call).
    all: intros call Hin; try (by apply elem_of_nil in Hin).
    apply list_elem_of_singleton in Hin as ->. cbn. by rewrite lookup_singleton_eq.
  - rewrite (run_execute _ _ _ _ _ key) by auto.
    destruct (execute_body _ _ _) as [parsed|] eqn:Hb;
      [destruct (get_property rt parsed "signedTransaction") as [f1|] eqn:H1;
        [destruct (get_property rt parsed "requestId") as [f2|] eqn:H2;
          [destruct (truthy (string_or_undefined f1)) eqn:T1,
                    (truthy (string_or_undefined f2)) eqn:T2|]|]|];
      do 2 eexists; (split; [done|split]).
    all: try (intros env' key' Hk';
              rewrite (run_execute _ _ _ _ _ key'), Hb, ?H1, ?H2, ?T1, ?T2 by auto;
              eexists; split; [done|]; cbn; by rewrite ?without_api_key_execute_call).
    all: intros call Hin; try (by apply elem_of_nil in Hin).
    apply list_elem_of_singleton in Hin as ->. cbn.
    by rewrite lookup_insert_ne, lookup_singleton_eq.
Qed.

(** C9, amended.  No handler writes its credential into a response.  With
    the credential configured, what an endpoint answers to a request, given
    how the upstream call settles, is the same for every value of the API
    key, and for every signing secret with the same HMAC digests; the
    upstream call differs only in its [x-api-key] header, which holds the
    key.  (A body relayed from upstream, or the message of a caught
    exception, is passed on as it is, whatever it contains.) *)
Theorem credentials_stay_out_of_answers rt env1 env2 e req outcome key1 key2 :
  truthy (credential env1 e) = Some key1 →
  truthy (credential env2 e) = Some key2 →
  (e = DevSign → ∀ data, hmac_sha256 rt key1 data = hmac_sha256 rt key2 data) →
  responds (λ _, outcome) (serve rt env1 e req) = responds (λ _, outcome) (serve rt env2 e req)
  ∧ without_api_key <$> upstream_calls (λ _, outcome) (serve rt env1 e req)
    = without_api_key <$> upstream_calls (λ _, outcome) (serve rt env2 e req)
  ∧ (∀ call, call ∈ upstream_calls (λ _, outcome) (serve rt env1 e req) →
       init_headers (fetch_init call) !! "x-api-key" = Some key1).
Proof.
  intros Hk1 Hk2 Hmac. unfold responds, upstream_calls.
  destruct (decide (method (Vercel.incoming req) = Some (accepted_method e))) as [Hm|Hm].
  2: { rewrite !run_wrong_method by done. cbn. split; [done|split; [done|]].
       by intros call ?%elem_of_nil. }
  destruct (is_proxy e) eqn:Hp.
  - destruct (proxy_run_key_free rt env1 e req outcome key1 Hp Hm Hk1)
      as (res & calls & Hrun & Hother & Hheader).
    destruct (Hother env2 key2 Hk2) as (calls' & Hrun' & Hcalls).
    rewrite Hrun, Hrun'. cbn. by repeat split.
  - destruct e; try discriminate Hp.
    rewrite (run_dev_sign _ _ _ _ key1), (run_dev_sign _ _ _ _ key2) by done.
    cbn. split; [|split; [done | by intros call ?%elem_of_nil]].
    f_equal. repeat case_match; try done. by rewrite Hmac.
Qed.

(** C10, amended.  For a POST with the credential configured: a request
    body that is not empty and that [JSON.parse] rejects makes the signing
    endpoint and the dev execute proxy answer 500 with the message of the
    parse exception, through the [catch] clause; so does a string
    [req.body] that [JSON.parse] rejects at the function execute handler.
    No upstream call is made. *)
Theorem rejected_json_is_500 rt env e req net key error :
  method (Vercel.incoming req) = Some "POST" →
  truthy (credential env e) = Some key →
  (e = DevSign ∨ e = DevExecute →
   stream_error (events (Vercel.incoming req)) = None →
   body_text (events (Vercel.incoming req)) ≠ "" →
   JSON_parse rt (body_text (events (Vercel.incoming req))) = Abrupt error →
   run net (serve rt env e req) =
     (Normal (error_answer e 500 (message_or error (fallback_message e))), []))
  ∧ (e = FnExecute →
     ∀ s, Vercel.body req = VString s →
          JSON_parse rt s = Abrupt error →
          run net (serve rt env e req) =
            (Normal (error_answer e 500 (message_or error (fallback_message e))), [])).
Proof.
  intros Hm Hk. split.
  - intros He Hs Ht Hp.
    assert (ViteConfig.readBody rt (Vercel.incoming req) = Abrupt error) as Hb
      by (by rewrite readBody_spec, Hs, bool_decide_eq_false_2).
    destruct He as [-> | ->].
    + by rewrite (run_dev_sign _ _ _ _ key), Hb.
    + rewrite (run_execute _ _ _ _ _ key) by auto. unfold execute_body. by rewrite Hb.
  - intros -> s Hb Hp.
    rewrite (run_execute _ _ _ _ _ key) by auto.
    unfold execute_body, ApiJupiterExecute.parseBody. by rewrite Hb, Hp.
Qed.

(** * Where the code departs from a claim as first stated *)

(** C2 as first stated puts an unparseable [url] under the 400.  The body
    [{"url":"not a url"}] has a string [url], the URL constructor rejects
    it, and the answer is the 500 of the [catch] clause.  So is the answer
    to the body [null], which has no [url] either. *)
Lemma unparseable_url_is_answered_500 :
  ViteConfig.readBody Sample.runtime (Vercel.incoming (Sample.post (dq "{'url':'not a url'}")))
    = Normal (VObject {[ "url" := VString "not a url" ]})
  ∧ new_URL Sample.runtime "not a url" None = Abrupt (ErrorInstance "Invalid URL")
  ∧ run Sample.offline
      (serve Sample.runtime Sample.env DevSign (Sample.post (dq "{'url':'not a url'}")))
    = (Normal {| statusCode := 500;
                 headers := {[ "Content-Type" := "application/json" ]};
                 writableEnded := true;
                 body := Some (dq "{'error':'Invalid URL'}") |}, [])
  ∧ (500 ≠ 400)
  ∧ run Sample.offline (serve Sample.runtime Sample.env DevSign (Sample.post "null"))
    = (Normal (error_answer DevSign 500 "Cannot read properties of null (reading 'url')"), []).
Proof. repeat split; try reflexivity. done. Qed.


(** C7 as first stated has the query string forwarded unchanged by the
    function handler too, which rebuilds it from the four required
    parameters: [slippageBps=50] is not forwarded. *)
Lemma function_order_rebuilds_query :
  raw_query "/api/jupiter/order?inputMint=So11&outputMint=EPjF&amount=1000&taker=Tk1&slippageBps=50"
    = "?inputMint=So11&outputMint=EPjF&amount=1000&taker=Tk1&slippageBps=50"
  ∧ fetch_input <$> upstream_calls Sample.offline
      (serve Sample.runtime Sample.env FnOrder Sample.fn_order_full)
    = ["https://api.jup.ag/ultra/v1/order?inputMint=So11&outputMint=EPjF&amount=1000&taker=Tk1"]
  ∧ "https://api.jup.ag/ultra/v1/order?inputMint=So11&outputMint=EPjF&amount=1000&taker=Tk1"
    ≠ "https://api.jup.ag/ultra/v1/order" +:+
      raw_query "/api/jupiter/order?inputMint=So11&outputMint=EPjF&amount=1000&taker=Tk1&slippageBps=50".
Proof. repeat split; try reflexivity. vm_compute. discriminate. Qed.


(** A line of the body can be the key: whatever upstream sends is relayed,
    and C9 as first stated rules that out for every upstream response. *)
Lemma relayed_body_can_hold_the_key :
  credential Sample.env DevOrder = Some "sk-test-1"
  ∧ run (λ call, Normal (Sample.unauthorized call))
      (serve Sample.runtime Sample.env DevOrder Sample.dev_order_full)
    = (Normal {| statusCode := 401;
                 headers := {[ "Content-Type" := "text/plain" ]};
                 writableEnded := true;
                 body := Some "invalid api key: sk-test-1" |},
       [order_call "sk-test-1"
          "https://api.jup.ag/ultra/v1/order?inputMint=So11&outputMint=EPjF&amount=1000&taker=Tk1&slippageBps=50"
          (Some "GET")])
  ∧ occurs_in "sk-test-1" "invalid api key: sk-test-1" = true.
Proof. repeat split; reflexivity. Qed.

(** C10 as first stated sends every body that is not valid JSON to the 500
    of the parse exception.  The empty body is not valid JSON, yet
    [readBody] takes it for the empty object and the answer is the 400 of
    validation; and without the credential the 500 carries the
    configuration message, the body never being read. *)
Lemma empty_body_is_not_parsed :
  body_text (events (Vercel.incoming (Sample.post ""))) = ""
  ∧ JSON_parse Sample.runtime "" = Abrupt (ErrorInstance "Unexpected end of JSON input")
  ∧ run Sample.offline (serve Sample.runtime Sample.env DevSign (Sample.post ""))
    = (Normal {| statusCode := 400;
                 headers := {[ "Content-Type" := "application/json" ]};
                 writableEnded := true;
                 body := Some (dq "{'error':'Missing url in MoonPay signature payload.'}") |},
       [])
  ∧ JSON_parse Sample.runtime "{" = Abrupt (ErrorInstance "Unexpected end of JSON input")
  ∧ run Sample.offline (serve Sample.runtime ∅ DevExecute (Sample.post "{"))
    = (Normal (error_answer DevExecute 500 (not_configured_message DevExecute)), [])
  ∧ not_configured_message DevExecute ≠ "Unexpected end of JSON input".
Proof. repeat split; try reflexivity. discriminate. Qed.

(** * The theorems at concrete requests *)

Lemma sign_returns_signature_witness :
  run Sample.offline (serve Sample.runtime Sample.env DevSign Sample.sign_request) =
    (Normal {| statusCode := 200;
               headers := {[ "Content-Type" := "application/json" ]};
               writableEnded := true;
               body := Some (dq "{'signature':'base64(HMAC-SHA256(k,?a=1&b=2))'}") |}, []).
Proof.
  exact (sign_returns_signature Sample.runtime Sample.env Sample.sign_request Sample.offline
           "k" (VObject {[ "url" := VString "https://x.example/pay?a=1&b=2" ]})
           "https://x.example/pay?a=1&b=2"
           {| search := "?a=1&b=2"; searchParams := [("a", "1"); ("b", "2")] |}
           eq_refl eq_refl eq_refl ltac:(discriminate) eq_refl eq_refl ltac:(discriminate)
           eq_refl).
Defined.

Lemma wrong_method_405_witness :
  run Sample.offline (serve Sample.runtime Sample.env DevOrder (Sample.post "null")) =
    (Normal {| statusCode := 405; headers := {[ "Allow" := "GET" ]};
               writableEnded := true; body := None |}, []).
Proof.
  apply (proj1 (wrong_method_405 Sample.runtime Sample.env DevOrder (Sample.post "null")
                  Sample.offline ltac:(discriminate))).
Defined.


Lemma rejected_without_upstream_call_witness :
  upstream_calls Sample.offline
    (serve Sample.runtime Sample.env DevOrder Sample.dev_order_two_mints) = []
  ∧ responds Sample.offline (serve Sample.runtime ∅ FnExecute (Sample.post Sample.execute_text))
    = Normal (error_answer FnExecute 500
                "Jupiter Ultra API key missing. Set JUPITER_ULTRA_API_KEY in Vercel env.").
Proof.
  split.
  - refine (proj1 (rejected_without_upstream_call Sample.runtime Sample.env DevOrder
                     Sample.dev_order_two_mints Sample.offline eq_refl _)).
    right. eexists. split; [reflexivity|].
    exists "amount". split; [|reflexivity].
    do 2 apply list_elem_of_further. apply list_elem_of_here.
  - exact (proj1 (proj2 (rejected_without_upstream_call Sample.runtime ∅ FnExecute
                    (Sample.post Sample.execute_text) Sample.offline eq_refl
                    (or_introl eq_refl))) eq_refl eq_refl).
Defined.

Lemma sign_failures_witness :
  run Sample.offline (serve Sample.runtime ∅ DevSign Sample.sign_request)
  = (Normal (error_answer DevSign 500 "MoonPay secret key is not configured on the server."), [])
  ∧ run Sample.offline
      (serve Sample.runtime Sample.env DevSign (Sample.post (dq "{'requestId':'r-1'}")))
    = (Normal (error_answer DevSign 400 "Missing url in MoonPay signature payload."), [])
  ∧ run Sample.offline
      (serve Sample.runtime Sample.env DevSign (Sample.post (dq "{'url':'not a url'}")))
    = (Normal (error_answer DevSign 500 "Invalid URL"), []).
Proof.
  split; [|split].
  - exact (proj1 (sign_failures Sample.runtime ∅ Sample.sign_request Sample.offline eq_refl)
             eq_refl).
  - refine (proj1 (proj2 (sign_failures Sample.runtime Sample.env
              (Sample.post (dq "{'requestId':'r-1'}")) Sample.offline eq_refl))
              (VObject {[ "requestId" := VString "r-1" ]}) _ eq_refl eq_refl eq_refl).
    exists "k". reflexivity.
  - refine (proj2 (proj2 (sign_failures Sample.runtime Sample.env
              (Sample.post (dq "{'url':'not a url'}")) Sample.offline eq_refl))
              (ErrorInstance "Invalid URL") _ _).
    + exists "k". reflexivity.
    + eapply raised_by_URL; reflexivity.
Defined.


Lemma order_upstream_call_witness :
  upstream_calls Sample.offline (serve Sample.runtime Sample.env DevOrder Sample.dev_order_full)
  = [ {| fetch_input :=
           "https://api.jup.ag/ultra/v1/order?inputMint=So11&outputMint=EPjF&amount=1000&taker=Tk1&slippageBps=50";
         fetch_init := {| init_method := Some "GET";
                          init_headers := {[ "x-api-key" := "sk-test-1" ]};
                          init_body := None |} |} ]
  ∧ ∃ call,
      upstream_calls Sample.offline
        (serve Sample.runtime Sample.env FnOrder Sample.fn_order_full) = [call]
      ∧ fetch_input call =
          "https://api.jup.ag/ultra/v1/order?inputMint=So11&outputMint=EPjF&amount=1000&taker=Tk1"
      ∧ effective_method call = "GET"
      ∧ init_headers (fetch_init call) = {[ "x-api-key" := "sk-test-1" ]}
      ∧ init_body (fetch_init call) = None.
Proof.
  split.
  - refine (proj1 (order_upstream_call Sample.runtime Sample.env Sample.dev_order_full
              Sample.offline "sk-test-1" eq_refl)
              {| search := "?inputMint=So11&outputMint=EPjF&amount=1000&taker=Tk1&slippageBps=50";
                 searchParams := [("inputMint", "So11"); ("outputMint", "EPjF");
                                  ("amount", "1000"); ("taker", "Tk1"); ("slippageBps", "50")] |}
              eq_refl eq_refl _).
    intros param Hin.
    repeat (apply elem_of_cons in Hin as [-> | Hin]; [reflexivity|]).
    by apply elem_of_nil in Hin.
  - refine (proj2 (order_upstream_call Sample.runtime Sample.env Sample.fn_order_full
              Sample.offline "sk-test-1" eq_refl) eq_refl _).
    intros param Hin.
    repeat (apply elem_of_cons in Hin as [-> | Hin]; [reflexivity|]).
    by apply elem_of_nil in Hin.
Defined.


Lemma credentials_stay_out_of_answers_witness :
  responds (λ _, Normal Sample.bad_gateway)
    (serve Sample.runtime Sample.env DevOrder Sample.dev_order_full)
  = responds (λ _, Normal Sample.bad_gateway)
      (serve Sample.runtime Sample.other_env DevOrder Sample.dev_order_full).
Proof.
  refine (proj1 (credentials_stay_out_of_answers Sample.runtime Sample.env Sample.other_env
            DevOrder Sample.dev_order_full (Normal Sample.bad_gateway)
            "sk-test-1" "sk-test-2" eq_refl eq_refl _)).
  discriminate.
Defined.

Lemma rejected_json_is_500_witness :
  run Sample.offline (serve Sample.runtime Sample.env DevSign (Sample.post "{"))
  = (Normal (error_answer DevSign 500 "Unexpected end of JSON input"), [])
  ∧ run Sample.offline
      (serve Sample.runtime Sample.env FnExecute
         (Sample.request "POST" "/api/jupiter/execute" OnEnd ∅ (VString "{")))
    = (Normal (error_answer FnExecute 500 "Unexpected end of JSON input"), []).
Proof.
  split.
  - refine (proj1 (rejected_json_is_500 Sample.runtime Sample.env DevSign (Sample.post "{")
              Sample.offline "k" (ErrorInstance "Unexpected end of JSON input")
              eq_refl eq_refl) (or_introl eq_refl) eq_refl _ eq_refl).
    discriminate.
  - exact (proj2 (rejected_json_is_500 Sample.runtime Sample.env FnExecute
             (Sample.request "POST" "/api/jupiter/execute" OnEnd ∅ (VString "{"))
             Sample.offline "sk-test-1" (ErrorInstance "Unexpected end of JSON input")
             eq_refl eq_refl) eq_refl "{" eq_refl eq_refl).
Defined.

(** * Further properties of the handlers *)

(** ** Credentials *)

Lemma truthy_Some_nonempty x s : truthy x = Some s → s ≠ "".
Proof. destruct x as [[|c t]|]; cbn; intros; simplify_eq; done. Qed.


Lemma credential_lookup env e :
  credential env e =
  match env !! primary_name e with
  | Some v => Some v
  | None => env !! fallback_name e
  end.
Proof. by destruct e. Qed.

(** X1.  The credential is read with [??]: the primary name wins whenever
    it is defined.  Defined but empty, it leaves the endpoint unconfigured,
    whatever the fallback name holds: every request with the accepted
    method gets the 500 of the missing credential. *)
Theorem empty_primary_shadows_fallback rt env e req net :
  env !! primary_name e = Some "" →
  method (Vercel.incoming req) = Some (accepted_method e) →
  run net (serve rt env e req) = (Normal (error_answer e 500 (not_configured_message e)), []).
Proof.
  intros Hp Hm. apply run_not_configured; [done|].
  by rewrite credential_lookup, Hp.
Qed.

(** ** Reading the request body *)



(** X3.  A request stream that fails makes the signing endpoint and the dev
    execute proxy answer 500 with the message of the stream's error,
    whatever had arrived before; nothing is parsed and nothing is sent
    upstream. *)
Theorem stream_error_is_500 rt env e req net key error :
  e = DevSign ∨ e = DevExecute →
  method (Vercel.incoming req) = Some "POST" →
  truthy (credential env e) = Some key →
  stream_error (events (Vercel.incoming req)) = Some error →
  run net (serve rt env e req) =
    (Normal (error_answer e 500 (message_or error (fallback_message e))), [])
  ∧ ∀ rt', run net (serve rt' env e req) = run net (serve rt env e req).
Proof.
  intros He Hm Hk Hs.
  assert (∀ rt0, run net (serve rt0 env e req) =
                 (Normal (error_answer e 500 (message_or error (fallback_message e))), []))
    as Hall.
  { intros rt0.
    assert (ViteConfig.readBody rt0 (Vercel.incoming req) = Abrupt error) as Hb
      by (by rewrite readBody_spec, Hs).
    destruct He as [-> | ->].
    - by rewrite (run_dev_sign _ _ _ _ key), Hb.
    - rewrite (run_execute _ _ _ _ _ key) by auto. unfold execute_body. by rewrite Hb. }
  split; [apply Hall|]. intros rt'. by rewrite !Hall.
Qed.

(** ** Every request is answered *)

Lemma settled_ended e outcome :
  writableEnded (settled e outcome) = true ∧ body (settled e outcome) ≠ None.
Proof. unfold settled. by repeat case_match. Qed.

(** X4.  Whatever the runtime, the environment, the request and the
    network do, a handler answers: no exception leaves it, the response is
    ended, at most one upstream call is made, and the response has a body
    unless its status is 405. *)
Theorem every_request_is_answered rt env e req net :
  ∃ res calls,
    run net (serve rt env e req) = (Normal res, calls)
    ∧ writableEnded res = true
    ∧ (length calls ≤ 1)%nat
    ∧ (body res = None → statusCode res = 405).
Proof.
  assert (∀ e' outcome (calls : list FetchCall),
            (length calls ≤ 1)%nat →
            ∃ res calls0,
              (Normal (settled e' outcome), calls) = (Normal res, calls0)
              ∧ writableEnded res = true
              ∧ (length calls0 ≤ 1)%nat
              ∧ (body res = None → statusCode res = 405)) as Hsettled.
  { intros e' outcome calls Hlen. do 2 eexists. split; [done|].
    destruct (settled_ended e' outcome) as [Hended Hbody]. by repeat split. }
  assert (∀ e' st message,
            ∃ res calls0,
              (Normal (error_answer e' st message), @nil FetchCall) = (Normal res, calls0)
              ∧ writableEnded res = true
              ∧ (length calls0 ≤ 1)%nat
              ∧ (body res = None → statusCode res = 405)) as Hown.
  { intros e' st message. do 2 eexists. split; [done|]. cbn. repeat split; try lia; done. }
  destruct (decide (method (Vercel.incoming req) = Some (accepted_method e))) as [Hm|Hm].
  2: { rewrite run_wrong_method by done. do 2 eexists. split; [done|].
       cbn. repeat split; try lia; done. }
  destruct (truthy (credential env e)) as [key|] eqn:Hk;
    [|rewrite run_not_configured by done; apply Hown].
  destruct e.
  - rewrite (run_dev_sign _ _ _ _ key) by done.
    repeat case_match; try (apply Hown).
    do 2 eexists. split; [done|]. cbn. repeat split; try lia; done.
  - rewrite (run_dev_order _ _ _ _ key) by done.
    repeat case_match; try (apply Hown). apply Hsettled. cbn. lia.
  - rewrite (run_execute _ _ _ _ _ key) by auto.
    repeat case_match; try (apply Hown); apply Hsettled; cbn; lia.
  - rewrite (run_fn_order _ _ _ _ key) by done.
    repeat case_match; try (apply Hown). apply Hsettled. cbn. lia.
  - rewrite (run_execute _ _ _ _ _ key) by auto.
    repeat case_match; try (apply Hown); apply Hsettled; cbn; lia.
Qed.


Lemma own_answer_status rt env e req net res :
  run net (serve rt env e req) = (Normal res, []) →
  (e = DevSign ∧ statusCode res = 200)
  ∨ statusCode res = 400 ∨ statusCode res = 405 ∨ statusCode res = 500.
Proof.
  destruct (decide (method (Vercel.incoming req) = Some (accepted_method e))) as [Hm|Hm];
    [|rewrite run_wrong_method by done; intros [= <-]; auto].
  destruct (truthy (credential env e)) as [key|] eqn:Hk;
    [|rewrite run_not_configured by done; intros [= <-]; auto].
  destruct e.
  - rewrite (run_dev_sign _ _ _ _ key) by done.
    repeat case_match; intros [= <-]; auto.
  - rewrite (run_dev_order _ _ _ _ key) by done.
    repeat case_match; intros [= <-]; auto.
  - rewrite (run_execute _ _ _ _ _ key) by auto.
    repeat case_match; intros [= <-]; auto.
  - rewrite (run_fn_order _ _ _ _ key) by done.
    repeat case_match; intros [= <-]; auto.
  - rewrite (run_execute _ _ _ _ _ key) by auto.
    repeat case_match; intros [= <-]; auto.
Qed.

Lemma sign_never_calls_upstream rt env req net :
  upstream_calls net (serve rt env DevSign req) = [].
Proof.
  unfold upstream_calls.
  destruct (decide (method (Vercel.incoming req) = Some "POST")) as [Hm|Hm];
    [|by rewrite run_wrong_method].
  destruct (truthy (credential env DevSign)) as [key|] eqn:Hk;
    [|by rewrite run_not_configured].
  by rewrite (run_dev_sign _ _ _ _ key).
Qed.

(** X5.  The signing endpoint never calls upstream and answers 200, 400,
    405 or 500.  A proxy that has made no upstream call answers 400, 405 or
    500: it reports no success of its own. *)
Theorem no_success_without_upstream rt env e req net :
  (e = DevSign → upstream_calls net (serve rt env e req) = [])
  ∧ ∀ res,
      run net (serve rt env e req) = (Normal res, []) →
      (e = DevSign ∧ statusCode res = 200)
      ∨ statusCode res = 400 ∨ statusCode res = 405 ∨ statusCode res = 500.
Proof.
  split; [intros ->; apply sign_never_calls_upstream|].
  intros res. apply own_answer_status.
Qed.

(** ** When the upstream call fails *)

(** X6.  When the upstream call of a proxy is rejected, or its body cannot
    be read, the proxy answers 500 with the message of that error; nothing
    of the upstream response, its status included, is passed on. *)
Theorem upstream_failure_is_500 rt env e req net call error :
  is_proxy e = true →
  call ∈ upstream_calls net (serve rt env e req) →
  net call = Abrupt error
  ∨ (∃ upstream, net call = Normal upstream ∧ text upstream = Abrupt error) →
  responds net (serve rt env e req) =
    Normal (error_answer e 500 (message_or error (fallback_message e))).
Proof.
  intros Hp Hin Hfail.
  destruct (proxy_call_settles rt env e req net call Hp Hin) as [_ ->].
  unfold settled. destruct Hfail as [-> | (upstream & -> & ->)]; done.
Qed.

(** X7.  A GET to the dev quote proxy whose request target the URL
    constructor rejects is answered 500 with the constructor's message:
    the parameters are never looked at and nothing is sent upstream. *)
Theorem unparseable_target_is_500 rt env req net key error :
  method (Vercel.incoming req) = Some "GET" →
  truthy (credential env DevOrder) = Some key →
  new_URL rt (default "" (url (Vercel.incoming req))) (Some "http://localhost") = Abrupt error →
  run net (serve rt env DevOrder req) =
    (Normal (error_answer DevOrder 500 (message_or error "Jupiter order request failed.")), []).
Proof.
  intros Hm Hk Hu. by rewrite (run_dev_order _ _ _ _ key), Hu.
Qed.

(** ** The body of the function execute handler *)


(** ** The two execute proxies side by side *)

(** X9.  Given the same API key and the same parsed body, the dev execute
    proxy and the function execute handler make the same upstream call, and
    when that call brings back a response they give the same answer. *)
Theorem execute_proxies_agree rt env env' req req' net key parsed :
  method (Vercel.incoming req) = Some "POST" →
  method (Vercel.incoming req') = Some "POST" →
  truthy (credential env DevExecute) = Some key →
  truthy (credential env' FnExecute) = Some key →
  ViteConfig.readBody rt (Vercel.incoming req) = Normal parsed →
  ApiJupiterExecute.parseBody rt req' = Normal parsed →
  upstream_calls net (serve rt env DevExecute req)
    = upstream_calls net (serve rt env' FnExecute req')
  ∧ ∀ call upstream text_body,
      call ∈ upstream_calls net (serve rt env DevExecute req) →
      net call = Normal upstream →
      text upstream = Normal text_body →
      responds net (serve rt env DevExecute req)
        = responds net (serve rt env' FnExecute req').
Proof.
  intros Hm Hm' Hk Hk' Hb Hb'. unfold upstream_calls, responds.
  rewrite (run_execute _ env _ req _ key), (run_execute _ env' _ req' _ key) by auto.
  unfold execute_body. rewrite Hb, Hb'.
  destruct (get_property rt parsed "signedTransaction") as [f1|]; [|split; [done|]];
    [|by intros call upstream text_body ?%elem_of_nil].
  destruct (get_property rt parsed "requestId") as [f2|]; [|split; [done|]];
    [|by intros call upstream text_body ?%elem_of_nil].
  destruct (truthy (string_or_undefined f1)) as [signedTransaction|];
    [destruct (truthy (string_or_undefined f2)) as [requestId|]|];
    cbn [fst snd]; (split; [done|]);
    try (by intros call upstream text_body ?%elem_of_nil).
  intros call upstream text_body Hin Hnet Htext.
  apply list_elem_of_singleton in Hin as ->.
  unfold settled. by rewrite Hnet, Htext.
Qed.


(** ** The query string the function quote handler sends upstream *)

Lemma count_char_app c a b :
  count_char c (a +:+ b) = (count_char c a + count_char c b)%nat.
Proof.
  induction a as [|x a IH]; [done|].
  rewrite string_app_cons. cbn [count_char]. rewrite IH. lia.
Qed.

Lemma urlencode_byte_clean ch :
  count_char "&" (Vercel.urlencode_byte ch) = 0%nat
  ∧ count_char "=" (Vercel.urlencode_byte ch) = 0%nat
  ∧ count_char "#" (Vercel.urlencode_byte ch) = 0%nat.
Proof. destruct ch as [[] [] [] [] [] [] [] []]; by vm_compute. Qed.

Lemma urlencode_clean s :
  count_char "&" (Vercel.urlencode s) = 0%nat
  ∧ count_char "=" (Vercel.urlencode s) = 0%nat
  ∧ count_char "#" (Vercel.urlencode s) = 0%nat.
Proof.
  induction s as [|ch s (IH1 & IH2 & IH3)]; [done|].
  destruct (urlencode_byte_clean ch) as (H1 & H2 & H3).
  cbn [Vercel.urlencode]. rewrite !count_char_app. lia.
Qed.

Lemma four_parameters_serialized a b c d :
  let query :=
    Vercel.URLSearchParams_toString
      [("inputMint", a); ("outputMint", b); ("amount", c); ("taker", d)] in
  count_char "&" query = 3%nat ∧ count_char "=" query = 4%nat ∧ count_char "#" query = 0%nat.
Proof.
  destruct (urlencode_clean a) as (A1 & A2 & A3), (urlencode_clean b) as (B1 & B2 & B3),
    (urlencode_clean c) as (C1 & C2 & C3), (urlencode_clean d) as (D1 & D2 & D3).
  cbn [Vercel.URLSearchParams_toString map Vercel.join fst snd].
  change (Vercel.urlencode "inputMint") with "inputMint".
  change (Vercel.urlencode "outputMint") with "outputMint".
  change (Vercel.urlencode "amount") with "amount".
  change (Vercel.urlencode "taker") with "taker".
  rewrite !count_char_app, A1, A2, A3, B1, B2, B3, C1, C2, C3, D1, D2, D3.
  by vm_compute.
Qed.

(** X10.  Whatever the values of the four parameters hold, the query string
    the function quote handler sends upstream has exactly four parameters:
    three [&], four [=] and no [#].  A value cannot add a parameter or cut
    the query short; the characters that could are percent-encoded. *)
Theorem function_order_sends_four_parameters rt env req net key :
  method (Vercel.incoming req) = Some "GET" →
  truthy (credential env FnOrder) = Some key →
  (∀ param, param ∈ order_params → ApiJupiterOrder.is_missing req param = false) →
  ∃ query,
    fetch_input <$> upstream_calls net (serve rt env FnOrder req)
      = ["https://api.jup.ag/ultra/v1/order?" +:+ query]
    ∧ count_char "&" query = 3%nat
    ∧ count_char "=" query = 4%nat
    ∧ count_char "#" query = 0%nat.
Proof.
  intros Hm Hk Hpresent. unfold upstream_calls.
  rewrite (run_fn_order _ _ _ _ key) by done.
  destruct (List.filter _ _) as [|first missing] eqn:Hf.
  - eexists. split; [reflexivity|]. apply four_parameters_serialized.
  - assert (In first (List.filter (ApiJupiterOrder.is_missing req) order_params)) as Hin
      by (rewrite Hf; by left).
    apply List.filter_In in Hin as [Hin Ha].
    apply list_elem_of_In in Hin. by rewrite (Hpresent first Hin) in Ha.
Qed.


(** * The client *)

(** ** The base64 helpers *)









(** ** Requesting a quote *)

Lemma js_not_empty s : js_not (Some s) = true ↔ s = "".
Proof. destruct s; cbn; split; done. Qed.

Lemma guard_false a b :
  js_not (Some a) || js_not (Some b) = false ↔ a ≠ "" ∧ b ≠ "".
Proof. destruct a, b; cbn; split; try done; intros [? ?]; done. Qed.

Lemma guard_true a b :
  js_not (Some a) || js_not (Some b) = true ↔ a = "" ∨ b = "".
Proof. destruct a, b; cbn; split; auto; try done; intros [?|?]; done. Qed.

Ltac client_cases :=
  unfold App.attempt;
  repeat (cbn [run fst snd length];
          match goal with
          | |- context [match ?c with Normal _ => _ | Abrupt _ => _ end] =>
              destruct c eqn:?
          | |- context [if negb ?b then _ else _] => destruct b eqn:?; cbn [negb]
          | |- context [match string_or_undefined ?v with Some _ => _ | None => _ end] =>
              destruct (string_or_undefined v) eqn:?
          end).

(** X12.  [handleOrderSubmit] always comes to an end with the order status
    at success or error, never left at loading.  It calls the quote proxy
    exactly when the amount and the taker are both filled in, and then
    once; when such a request fails in any way the pending request id and
    transaction are cleared, so that no route is ready.  The wallet, the
    form fields and the surface are never touched. *)
Theorem order_submit_outcome rt st net :
  ∃ st' calls,
    run net (App.handleOrderSubmit rt st) = (Normal st', calls)
    ∧ (App.orderStatus st' = App.Success ∨ App.orderStatus st' = App.Failed)
    ∧ (calls = [] ↔ App.swapAmount st = "" ∨ App.takerAddress st = "")
    ∧ (calls ≠ [] → calls = [quote_call (App.swapAmount st) (App.takerAddress st)])
    ∧ (calls ≠ [] → App.orderStatus st' = App.Failed →
       App.pendingRequestId st' = "" ∧ App.pendingTransaction st' = ""
       ∧ App.isRouteReady st' = false)
    ∧ App.walletState st' = App.walletState st
    ∧ App.swapAmount st' = App.swapAmount st
    ∧ App.takerAddress st' = App.takerAddress st
    ∧ App.activeSurface st' = App.activeSurface st.
Proof.
  unfold App.handleOrderSubmit.
  destruct (js_not (Some (App.swapAmount st)) || js_not (Some (App.takerAddress st))) eqn:G.
  - apply guard_true in G. do 2 eexists. split; [reflexivity|].
    cbn. repeat split; auto; intros; done.
  - apply guard_false in G as [Ha Ht].
    client_cases; do 2 eexists; (split; [reflexivity|]); cbn;
      repeat split; auto; try done; try (intros [?|?]; done).
Qed.


(** X13.  When the quote proxy answers with a 2xx status and a JSON value
    that is not [null], [handleOrderSubmit] ends in success, keeps the
    payload as the quote, and resets the execute status.  The pending
    request id is the payload's [requestId] when it is a string, else empty;
    the pending transaction is [swapTransaction] when that is a string, even
    an empty one, else [transaction] when that is a string, else empty. *)
Theorem order_submit_success rt st net response payload :
  App.swapAmount st ≠ "" →
  App.takerAddress st ≠ "" →
  net (quote_call (App.swapAmount st) (App.takerAddress st)) = Normal response →
  App.ok response = true →
  App.json rt response = Normal payload →
  nullish payload = false →
  ∃ st',
    responds net (App.handleOrderSubmit rt st) = Normal st'
    ∧ App.orderStatus st' = App.Success
    ∧ App.orderQuote st' = payload
    ∧ App.executeStatus st' = App.Idle
    ∧ App.pendingRequestId st' = default "" (string_field payload "requestId")
    ∧ App.pendingTransaction st' =
        match string_field payload "swapTransaction" with
        | Some swapTransaction => swapTransaction
        | None => default "" (string_field payload "transaction")
        end.
Proof.
  intros Ha Ht Hnet Hok Hjson Hn.
  assert (js_not (Some (App.swapAmount st)) || js_not (Some (App.takerAddress st)) = false)
    as G by (by apply guard_false).
  destruct (get_property_string_field rt payload "requestId" Hn) as (f1 & Hf1 & Hs1).
  destruct (get_property_string_field rt payload "swapTransaction" Hn) as (f2 & Hf2 & Hs2).
  destruct (get_property_string_field rt payload "transaction" Hn) as (f3 & Hf3 & Hs3).
  unfold responds, App.handleOrderSubmit. rewrite G. cbn [run].
  fold (quote_call (App.swapAmount st) (App.takerAddress st)).
  rewrite Hnet. unfold App.attempt. rewrite Hjson, Hok. cbn [negb].
  rewrite Hf1, Hf2, Hs1, Hs2.
  destruct (string_field payload "swapTransaction") as [swapTransaction|].
  - eexists. split; [reflexivity|]. by repeat split.
  - rewrite Hf3, Hs3. eexists. split; [reflexivity|]. by repeat split.
Qed.

(** ** Signing and executing *)

Lemma primary_cta_dispatch rt br metaKeepAppId st :
  App.handlePrimaryCta rt br metaKeepAppId st
  = if App.isRouteReady st then App.handleSignAndExecute rt br metaKeepAppId st
    else App.handleOrderSubmit rt st.
Proof.
  unfold App.handlePrimaryCta, App.isRouteReady.
  by destruct (js_not (Some (App.pendingTransaction st))),
              (js_not (Some (App.pendingRequestId st))).
Qed.

Lemma route_ready_pending st st' :
  App.pendingRequestId st' = App.pendingRequestId st →
  App.pendingTransaction st' = App.pendingTransaction st →
  App.isRouteReady st' = App.isRouteReady st.
Proof. unfold App.isRouteReady. by intros -> ->. Qed.

Lemma sign_and_execute_run rt br metaKeepAppId st net :
  ∃ st' calls,
    run net (App.handleSignAndExecute rt br metaKeepAppId st) = (Normal st', calls)
    ∧ (App.executeStatus st' = App.Success ∨ App.executeStatus st' = App.Failed)
    ∧ (calls = [] ∨ ∃ signedBase64,
         calls = [execute_request signedBase64 (App.pendingRequestId st)]
         ∧ App.isRouteReady st = true
         ∧ js_not (App.address (App.walletState st)) = false
         ∧ is_Some (App.MetaKeep br))
    ∧ App.pendingRequestId st' = App.pendingRequestId st
    ∧ App.pendingTransaction st' = App.pendingTransaction st
    ∧ App.orderQuote st' = App.orderQuote st
    ∧ App.orderStatus st' = App.orderStatus st
    ∧ App.walletState st' = App.walletState st.
Proof.
  unfold App.handleSignAndExecute, App.isRouteReady.
  destruct (js_not (Some (App.pendingTransaction st))
            || js_not (Some (App.pendingRequestId st))) eqn:G.
  { do 2 eexists. split; [reflexivity|]. cbn. repeat split; auto. }
  assert (negb (js_not (Some (App.pendingTransaction st)))
          && negb (js_not (Some (App.pendingRequestId st))) = true) as Hready
    by (by destruct (js_not (Some (App.pendingTransaction st))),
                    (js_not (Some (App.pendingRequestId st)))).
  rewrite Hready.
  destruct (js_not (App.address (App.walletState st))) eqn:Hw.
  { do 2 eexists. split; [reflexivity|]. cbn. repeat split; auto. }
  destruct (App.MetaKeep br) as [construct|] eqn:Hsdk.
  2: { do 2 eexists. split; [reflexivity|]. cbn. repeat split; auto. }
  client_cases; do 2 eexists; (split; [reflexivity|]); cbn;
    repeat split; auto;
    right; eexists; repeat split; eauto.
Qed.

(** X14.  [handleSignAndExecute] always comes to an end with the execute
    status at success or error.  It calls the execute proxy at most once,
    and only with a route pending, a wallet address and the SDK loaded; the
    body it posts holds exactly [signedTransaction] and the pending
    [requestId].  On every path the pending route, the quote and the order
    status are left as they were: after a swap went through, the route is
    still ready and the primary action is again to sign and execute. *)
Theorem sign_and_execute_outcome rt br metaKeepAppId st net :
  ∃ st' calls,
    run net (App.handleSignAndExecute rt br metaKeepAppId st) = (Normal st', calls)
    ∧ (App.executeStatus st' = App.Success ∨ App.executeStatus st' = App.Failed)
    ∧ (calls = [] ∨ ∃ signedBase64,
         calls = [execute_request signedBase64 (App.pendingRequestId st)]
         ∧ App.isRouteReady st = true
         ∧ js_not (App.address (App.walletState st)) = false
         ∧ is_Some (App.MetaKeep br))
    ∧ App.pendingRequestId st' = App.pendingRequestId st
    ∧ App.pendingTransaction st' = App.pendingTransaction st
    ∧ App.orderQuote st' = App.orderQuote st
    ∧ App.orderStatus st' = App.orderStatus st
    ∧ App.walletState st' = App.walletState st
    ∧ App.handlePrimaryCta rt br metaKeepAppId st'
      = if App.isRouteReady st then App.handleSignAndExecute rt br metaKeepAppId st'
        else App.handleOrderSubmit rt st'.
Proof.
  destruct (sign_and_execute_run rt br metaKeepAppId st net)
    as (st' & calls & Hrun & Hstatus & Hcalls & Hid & Htx & Hq & Ho & Hw).
  exists st', calls. repeat (split; [assumption|]).
  by rewrite primary_cta_dispatch, (route_ready_pending st st').
Qed.


(** ** The client and the endpoints together *)

Lemma JSON_stringify_nonempty payload : JSON_stringify payload ≠ "".
Proof. unfold JSON_stringify. by rewrite string_app_cons. Qed.

(** X15.  What [handleSignAndExecute] posts is what goes upstream.  When
    the body of its call reaches the dev execute proxy, in whatever chunks,
    and [JSON.parse] reads the two strings back from it, the proxy forwards
    a body equal to it byte for byte, provided the encoded transaction is
    not empty; the request id cannot be, the client would not have
    called. *)
Theorem client_execute_body_reaches_upstream
    rt_c br metaKeepAppId st net_c signedBase64 rt env req net key parsed :
  upstream_calls net_c (App.handleSignAndExecute rt_c br metaKeepAppId st)
    = [execute_request signedBase64 (App.pendingRequestId st)] →
  signedBase64 ≠ "" →
  method (Vercel.incoming req) = Some "POST" →
  stream_error (events (Vercel.incoming req)) = None →
  Some (body_text (events (Vercel.incoming req)))
    = init_body (fetch_init (execute_request signedBase64 (App.pendingRequestId st))) →
  JSON_parse rt (body_text (events (Vercel.incoming req))) = Normal parsed →
  string_field parsed "signedTransaction" = Some signedBase64 →
  string_field parsed "requestId" = Some (App.pendingRequestId st) →
  truthy (credential env DevExecute) = Some key →
  ∃ ucall,
    upstream_calls net (serve rt env DevExecute req) = [ucall]
    ∧ fetch_input ucall = "https://api.jup.ag/ultra/v1/execute"
    ∧ init_body (fetch_init ucall) = Some (body_text (events (Vercel.incoming req))).
Proof.
  intros Hc Hne Hm Hs Hbody Hparse Hf1 Hf2 Hk. unfold upstream_calls in Hc.
  destruct (sign_and_execute_run rt_c br metaKeepAppId st net_c)
    as (st' & calls & Hrun & _ & Hcalls & _).
  rewrite Hrun in Hc. cbn in Hc. subst calls.
  destruct Hcalls as [|(other & _ & Hready & _)]; [done|].
  cbn in Hbody. injection Hbody as Hbody.
  assert (App.pendingRequestId st ≠ "") as Hid.
  { unfold App.isRouteReady in Hready. apply andb_true_iff in Hready as [_ Hr].
    intros Heq. rewrite Heq in Hr. done. }
  unfold upstream_calls.
  rewrite (run_execute _ _ _ _ _ key) by auto.
  unfold execute_body.
  rewrite readBody_spec, Hs, bool_decide_eq_false_2, Hparse
    by (rewrite Hbody; apply JSON_stringify_nonempty).
  assert (nullish parsed = false) as Hn by (by destruct parsed).
  destruct (string_field_truthy rt parsed "signedTransaction" Hn) as (f1 & -> & ->).
  destruct (string_field_truthy rt parsed "requestId" Hn) as (f2 & -> & ->).
  rewrite Hf1, Hf2, !truthy_nonempty by done.
  eexists. split; [reflexivity|]. split; [reflexivity|]. cbn. by rewrite Hbody.
Qed.

Lemma quote_call_query amount taker :
  raw_query (fetch_input (quote_call amount taker)) =
  "?" +:+ Vercel.URLSearchParams_toString
            [("inputMint", App.DEFAULT_INPUT_MINT); ("outputMint", App.DEFAULT_OUTPUT_MINT);
             ("amount", amount); ("taker", taker)].
Proof. reflexivity. Qed.

(** X16.  A quote request of the client is never turned away by the quote
    proxy, and both deployments send its query string upstream unchanged.
    With an amount and a taker filled in: at the dev middleware, when the
    URL constructor reads the four parameters back from the request target
    and keeps its query, and at the function handler, when [req.query]
    holds the four parameters, the one upstream call goes to the base URL
    plus [/order] plus the query string the client built. *)
Theorem client_quote_reaches_upstream st rt env key :
  App.swapAmount st ≠ "" →
  App.takerAddress st ≠ "" →
  let query :=
    raw_query (fetch_input (quote_call (App.swapAmount st) (App.takerAddress st))) in
  (∀ req net u,
     method (Vercel.incoming req) = Some "GET" →
     url (Vercel.incoming req) = Some ("/" +:+ query) →
     truthy (credential env DevOrder) = Some key →
     new_URL rt ("/" +:+ query) (Some "http://localhost") = Normal u →
     search u = query →
     searchParams u =
       [("inputMint", App.DEFAULT_INPUT_MINT); ("outputMint", App.DEFAULT_OUTPUT_MINT);
        ("amount", App.swapAmount st); ("taker", App.takerAddress st)] →
     upstream_calls net (serve rt env DevOrder req) =
       [order_call key ("https://api.jup.ag/ultra/v1/order" +:+ query) (Some "GET")])
  ∧ (∀ req net,
     method (Vercel.incoming req) = Some "GET" →
     truthy (credential env FnOrder) = Some key →
     Vercel.query req !! "inputMint" = Some (Vercel.QString App.DEFAULT_INPUT_MINT) →
     Vercel.query req !! "outputMint" = Some (Vercel.QString App.DEFAULT_OUTPUT_MINT) →
     Vercel.query req !! "amount" = Some (Vercel.QString (App.swapAmount st)) →
     Vercel.query req !! "taker" = Some (Vercel.QString (App.takerAddress st)) →
     upstream_calls net (serve rt env FnOrder req) =
       [order_call key ("https://api.jup.ag/ultra/v1/order" +:+ query) None]).
Proof.
  intros Ha Ht query. subst query. rewrite quote_call_query.
  unfold upstream_calls. split.
  - intros req net u Hm Hurl Hk Hu Hsearch Hparams.
    rewrite (run_dev_order _ _ _ _ key), Hurl by done. cbn [from_option id]. rewrite Hu.
    assert (List.find (absent_or_empty u) order_params = None) as ->.
    { unfold order_params, absent_or_empty. rewrite Hparams. cbn.
      destruct (App.swapAmount st); [done|]. by destruct (App.takerAddress st). }
    cbn [snd]. by rewrite Hsearch.
  - intros req net Hm Hk H1 H2 H3 H4.
    rewrite (run_fn_order _ _ _ _ key) by done.
    assert (List.filter (ApiJupiterOrder.is_missing req) order_params = []) as ->.
    { unfold order_params, ApiJupiterOrder.is_missing. cbn [List.filter].
      rewrite H1, H2, H3, H4. cbn.
      destruct (App.swapAmount st); [done|]. by destruct (App.takerAddress st). }
    cbn [snd map order_params]. by rewrite H1, H2, H3, H4.
Qed.


Lemma string_or_undefined_Some field s :
  string_or_undefined field = Some s → field = VString s.
Proof. destruct field; cbn; congruence. Qed.

Lemma ok_iff response :
  App.ok response = true ↔ 200 ≤ status response ≤ 299.
Proof. unfold App.ok. rewrite andb_true_iff, !Z.leb_le. tauto. Qed.

(** X17.  [signMoonPayUrl] and the signing endpoint fit together.  The
    client posts [{"url": url}]; when [JSON.parse] on the server reads the
    string back from it and the URL constructor accepts it, the endpoint
    answers 200 with [{"signature": s}]; and when the client's [JSON.parse]
    reads [s] back from that body, [signMoonPayUrl] resolves to [s], the
    base64 HMAC of the URL's query string, provided [s] is not empty. *)
Theorem client_obtains_signature rt_c br rt env req net key url_text parsed u :
  method (Vercel.incoming req) = Some "POST" →
  truthy (credential env DevSign) = Some key →
  stream_error (events (Vercel.incoming req)) = None →
  body_text (events (Vercel.incoming req)) = JSON_stringify [("url", url_text)] →
  JSON_parse rt (body_text (events (Vercel.incoming req))) = Normal parsed →
  string_field parsed "url" = Some url_text →
  url_text ≠ "" →
  new_URL rt url_text None = Normal u →
  let signature := base64 rt (hmac_sha256 rt key (search u)) in
  run net (serve rt env DevSign req) =
    (Normal {| statusCode := 200;
               headers := {[ "Content-Type" := "application/json" ]};
               writableEnded := true;
               body := Some (JSON_stringify [("signature", signature)]) |}, [])
  ∧ ∀ response parsed',
      status response = 200 →
      text response = Normal (JSON_stringify [("signature", signature)]) →
      JSON_parse rt_c (JSON_stringify [("signature", signature)]) = Normal parsed' →
      string_field parsed' "signature" = Some signature →
      signature ≠ "" →
      run (λ _, Normal response) (App.signMoonPayUrl rt_c br url_text)
      = (Normal (VString signature),
         [ {| fetch_input := "/api/sign-moonpay";
              fetch_init :=
                {| init_method := Some "POST";
                   init_headers := {[ "Content-Type" := "application/json" ]};
                   init_body := Some (body_text (events (Vercel.incoming req))) |} |} ]).
Proof.
  intros Hm Hk Hs Hbody Hparse Hf Hne Hu signature. split.
  - rewrite (run_dev_sign _ _ _ _ key) by done.
    rewrite readBody_spec, Hs, bool_decide_eq_false_2, Hparse
      by (rewrite Hbody; apply JSON_stringify_nonempty).
    destruct (string_field_truthy rt parsed "url") as (f & -> & ->);
      [by eapply string_field_not_nullish|].
    by rewrite Hf, truthy_nonempty, Hu.
  - intros response parsed' Hstatus Htext Hparse' Hsig Hsne.
    assert (App.ok response = true) as Hok by (apply ok_iff; lia).
    assert (nullish parsed' = false) as Hn by (by destruct parsed').
    destruct (get_property_string_field rt_c parsed' "signature" Hn) as (f & Hget & Hfield).
    rewrite Hsig in Hfield. apply string_or_undefined_Some in Hfield as ->.
    unfold App.signMoonPayUrl, fetch, mbind, io_mbind. cbn [io_bind run await].
    rewrite Hok. cbn [negb]. unfold App.json. rewrite Htext, Hparse'.
    cbn [io_bind await]. rewrite Hget. cbn [io_bind await App.ToBoolean].
    rewrite Hbody.
    destruct signature; [done | reflexivity].
Qed.

(** X18.  Whenever the signing endpoint answers anything but 200,
    [signMoonPayUrl] rejects with one fixed message: the body is not
    parsed and the error text of the endpoint is not passed on. *)
Theorem client_sign_rejection rt_c br rt env req net res response url_text :
  responds net (serve rt env DevSign req) = Normal res →
  statusCode res ≠ 200 →
  status response = statusCode res →
  responds (λ _, Normal response) (App.signMoonPayUrl rt_c br url_text)
  = Abrupt (ErrorInstance "MoonPay signature endpoint rejected the request.").
Proof.
  intros Hres Hne Hstatus.
  assert (run net (serve rt env DevSign req) = (Normal res, [])) as Hrun.
  { pose proof (sign_never_calls_upstream rt env req net) as Hc.
    unfold responds in Hres. unfold upstream_calls in Hc.
    destruct (run net (serve rt env DevSign req)) as [c calls]. cbn in *. by subst. }
  assert (App.ok response = false) as Hok.
  { destruct (App.ok response) eqn:Hok; [|done].
    apply ok_iff in Hok.
    destruct (own_answer_status _ _ _ _ _ _ Hrun) as [[_ H]|[H|[H|H]]]; lia. }
  unfold responds, App.signMoonPayUrl, fetch, mbind, io_mbind. cbn [io_bind run await].
  by rewrite Hok.
Qed.

(** ** The wallet *)

(** X19.  After [handleWalletRequest] the wallet is either ready, with a
    Solana address that is not empty, or in error, with a message and no
    address: a re-sync that fails drops the address that was there.
    Nothing else of the state changes.  Once the wallet is ready the effect
    that follows fills an empty taker field with the address and keeps a
    taker that was typed in. *)
Theorem wallet_request_outcome br metaKeepAppId st :
  let st' := App.handleWalletRequest br metaKeepAppId st in
  ((App.wallet_status (App.walletState st') = App.WalletReady
    ∧ ∃ wallet_address,
        App.address (App.walletState st') = Some wallet_address ∧ wallet_address ≠ ""
        ∧ App.takerAddress (App.syncTakerAddress st')
          = if bool_decide (App.takerAddress st = "") then wallet_address
            else App.takerAddress st)
   ∨ (App.wallet_status (App.walletState st') = App.WalletError
      ∧ App.address (App.walletState st') = None
      ∧ is_Some (App.wallet_message (App.walletState st'))
      ∧ App.syncTakerAddress st' = st'))
  ∧ App.pendingRequestId st' = App.pendingRequestId st
  ∧ App.pendingTransaction st' = App.pendingTransaction st
  ∧ App.swapAmount st' = App.swapAmount st
  ∧ App.takerAddress st' = App.takerAddress st
  ∧ App.orderStatus st' = App.orderStatus st
  ∧ App.executeStatus st' = App.executeStatus st.
Proof.
  unfold App.handleWalletRequest.
  destruct (App.MetaKeep br) as [construct|]; [|cbn; split; [right|]; by repeat split].
  destruct (construct metaKeepAppId) as [sdk|]; [|cbn; split; [right|]; by repeat split].
  destruct (App.getWallet br sdk) as [response|]; [|cbn; split; [right|]; by repeat split].
  destruct (bool_decide (App.response_status response ≠ "SUCCESS"));
    [cbn; split; [right|]; by repeat split|].
  destruct (truthy (mjoin (App.wallet_solAddress response))) as [solAddress|] eqn:Haddr;
    [|cbn; split; [right|]; by repeat split].
  apply truthy_Some_nonempty in Haddr.
  cbn. split; [left|by repeat split]. split; [done|].
  exists solAddress. split; [done|]. split; [done|].
  unfold App.syncTakerAddress.
  destruct solAddress as [|c solAddress]; [done|]. cbn.
  by destruct (App.takerAddress st).
Qed.


(** * The further theorems at concrete requests *)

Lemma empty_primary_shadows_fallback_witness :
  run Sample.offline
    (serve Sample.runtime ClientSample.empty_primary DevOrder Sample.dev_order_full)
  = (Normal (error_answer DevOrder 500 (not_configured_message DevOrder)), []).
Proof.
  exact (empty_primary_shadows_fallback Sample.runtime ClientSample.empty_primary DevOrder
           Sample.dev_order_full Sample.offline eq_refl eq_refl).
Defined.


Lemma stream_error_is_500_witness :
  run Sample.offline (serve Sample.runtime Sample.env DevSign ClientSample.broken_post)
  = (Normal (error_answer DevSign 500 "aborted"), []).
Proof.
  exact (proj1 (stream_error_is_500 Sample.runtime Sample.env DevSign
                  ClientSample.broken_post Sample.offline "k" (ErrorInstance "aborted")
                  (or_introl eq_refl) eq_refl eq_refl eq_refl)).
Defined.

Lemma no_success_without_upstream_witness :
  statusCode (error_answer DevOrder 400 "Missing required parameter: amount") = 400
  ∨ statusCode (error_answer DevOrder 400 "Missing required parameter: amount") = 405
  ∨ statusCode (error_answer DevOrder 400 "Missing required parameter: amount") = 500.
Proof.
  destruct (proj2 (no_success_without_upstream Sample.runtime Sample.env DevOrder
                     Sample.dev_order_two_mints Sample.offline)
              (error_answer DevOrder 400 "Missing required parameter: amount") eq_refl)
    as [[Hsign _] | Hstatus].
  - discriminate Hsign.
  - exact Hstatus.
Defined.

Lemma upstream_failure_is_500_witness :
  responds Sample.offline (serve Sample.runtime Sample.env FnOrder Sample.fn_order_full)
  = Normal (error_answer FnOrder 500 "fetch failed").
Proof.
  apply (upstream_failure_is_500 Sample.runtime Sample.env FnOrder Sample.fn_order_full
           Sample.offline
           (order_call "sk-test-1"
              "https://api.jup.ag/ultra/v1/order?inputMint=So11&outputMint=EPjF&amount=1000&taker=Tk1"
              None)
           (ErrorInstance "fetch failed")).
  - reflexivity.
  - vm_compute. apply list_elem_of_here.
  - left. reflexivity.
Defined.

Lemma unparseable_target_is_500_witness :
  run Sample.offline
    (serve Sample.runtime Sample.env DevOrder (Sample.request "GET" "//" OnEnd ∅ VUndefined))
  = (Normal (error_answer DevOrder 500 "Invalid URL"), []).
Proof.
  exact (unparseable_target_is_500 Sample.runtime Sample.env
           (Sample.request "GET" "//" OnEnd ∅ VUndefined) Sample.offline "sk-test-1"
           (ErrorInstance "Invalid URL") eq_refl eq_refl eq_refl).
Defined.


Lemma execute_proxies_agree_witness :
  upstream_calls (λ _, Normal Sample.bad_gateway)
    (serve ClientSample.runtime Sample.env DevExecute ClientSample.execute_post)
  = upstream_calls (λ _, Normal Sample.bad_gateway)
      (serve ClientSample.runtime Sample.env FnExecute
         (Sample.request "POST" "/api/jupiter/execute" OnEnd ∅
            (VObject (<[ "requestId" := VString "r-1" ]>
                      {[ "signedTransaction" := VString "AQID" ]})))).
Proof.
  exact (proj1 (execute_proxies_agree ClientSample.runtime Sample.env Sample.env
                  ClientSample.execute_post
                  (Sample.request "POST" "/api/jupiter/execute" OnEnd ∅
                     (VObject (<[ "requestId" := VString "r-1" ]>
                               {[ "signedTransaction" := VString "AQID" ]})))
                  (λ _, Normal Sample.bad_gateway) "sk-test-1"
                  (VObject (<[ "requestId" := VString "r-1" ]>
                            {[ "signedTransaction" := VString "AQID" ]}))
                  eq_refl eq_refl eq_refl eq_refl eq_refl eq_refl)).
Defined.

Lemma function_order_sends_four_parameters_witness :
  ∃ query,
    fetch_input <$> upstream_calls Sample.offline
      (serve Sample.runtime Sample.env FnOrder
         (Sample.request "GET" "/api/jupiter/order" OnEnd ClientSample.sly_query VUndefined))
      = ["https://api.jup.ag/ultra/v1/order?" +:+ query]
    ∧ count_char "&" query = 3%nat
    ∧ count_char "=" query = 4%nat
    ∧ count_char "#" query = 0%nat.
Proof.
  refine (function_order_sends_four_parameters Sample.runtime Sample.env
            (Sample.request "GET" "/api/jupiter/order" OnEnd ClientSample.sly_query VUndefined)
            Sample.offline "sk-test-1" eq_refl eq_refl _).
  intros param Hin.
  repeat (apply elem_of_cons in Hin as [-> | Hin]; [reflexivity|]).
  by apply elem_of_nil in Hin.
Defined.


Lemma order_submit_success_witness :
  ∃ st',
    responds (λ _, Normal ClientSample.quote_response)
      (App.handleOrderSubmit ClientSample.runtime ClientSample.with_taker) = Normal st'
    ∧ App.orderStatus st' = App.Success
    ∧ App.orderQuote st'
      = VObject (<[ "transaction" := VString "AQID" ]> {[ "requestId" := VString "r-1" ]})
    ∧ App.executeStatus st' = App.Idle
    ∧ App.pendingRequestId st' = "r-1"
    ∧ App.pendingTransaction st' = "AQID".
Proof.
  refine (order_submit_success ClientSample.runtime ClientSample.with_taker
            (λ _, Normal ClientSample.quote_response) ClientSample.quote_response
            (VObject (<[ "transaction" := VString "AQID" ]> {[ "requestId" := VString "r-1" ]}))
            _ _ eq_refl eq_refl eq_refl eq_refl); discriminate.
Defined.

Lemma client_execute_body_reaches_upstream_witness :
  ∃ ucall,
    upstream_calls Sample.offline
      (serve ClientSample.runtime Sample.env DevExecute ClientSample.execute_post) = [ucall]
    ∧ fetch_input ucall = "https://api.jup.ag/ultra/v1/execute"
    ∧ init_body (fetch_init ucall)
      = Some (dq "{'signedTransaction':'AQID','requestId':'r-1'}").
Proof.
  refine (client_execute_body_reaches_upstream ClientSample.runtime ClientSample.browser
            "app-1" ClientSample.with_route Sample.offline "AQID"
            ClientSample.runtime Sample.env ClientSample.execute_post Sample.offline
            "sk-test-1"
            (VObject (<[ "requestId" := VString "r-1" ]>
                      {[ "signedTransaction" := VString "AQID" ]}))
            eq_refl _ eq_refl eq_refl eq_refl eq_refl eq_refl eq_refl eq_refl).
  discriminate.
Defined.

Lemma client_quote_reaches_upstream_witness :
  upstream_calls Sample.offline
    (serve ClientSample.runtime Sample.env DevOrder ClientSample.quote_get)
  = [order_call "sk-test-1" ("https://api.jup.ag/ultra/v1/order" +:+ ClientSample.query)
       (Some "GET")]
  ∧ upstream_calls Sample.offline
      (serve ClientSample.runtime Sample.env FnOrder ClientSample.quote_get)
    = [order_call "sk-test-1" ("https://api.jup.ag/ultra/v1/order" +:+ ClientSample.query)
         None].
Proof.
  assert (App.swapAmount ClientSample.with_taker ≠ "") as Ha by discriminate.
  assert (App.takerAddress ClientSample.with_taker ≠ "") as Ht by discriminate.
  destruct (client_quote_reaches_upstream ClientSample.with_taker ClientSample.runtime
              Sample.env "sk-test-1" Ha Ht) as [Hdev Hfn].
  split.
  - exact (Hdev ClientSample.quote_get Sample.offline ClientSample.quote_url
             eq_refl eq_refl eq_refl eq_refl eq_refl eq_refl).
  - exact (Hfn ClientSample.quote_get Sample.offline
             eq_refl eq_refl eq_refl eq_refl eq_refl eq_refl).
Defined.

Lemma client_obtains_signature_witness :
  run (λ _, Normal {| status := 200; response_headers := ∅;
                      text := Normal (dq "{'signature':'base64(HMAC-SHA256(k,?a=1&b=2))'}") |})
    (App.signMoonPayUrl ClientSample.runtime ClientSample.browser
       "https://x.example/pay?a=1&b=2")
  = (Normal (VString "base64(HMAC-SHA256(k,?a=1&b=2))"),
     [ {| fetch_input := "/api/sign-moonpay";
          fetch_init :=
            {| init_method := Some "POST";
               init_headers := {[ "Content-Type" := "application/json" ]};
               init_body := Some (dq "{'url':'https://x.example/pay?a=1&b=2'}") |} |} ]).
Proof.
  refine (proj2 (client_obtains_signature ClientSample.runtime ClientSample.browser
              ClientSample.runtime Sample.env ClientSample.sign_post Sample.offline "k"
              "https://x.example/pay?a=1&b=2"
              (VObject {[ "url" := VString "https://x.example/pay?a=1&b=2" ]})
              {| search := "?a=1&b=2"; searchParams := [("a", "1"); ("b", "2")] |}
              eq_refl eq_refl eq_refl eq_refl eq_refl eq_refl _ eq_refl)
            {| status := 200; response_headers := ∅;
               text := Normal (dq "{'signature':'base64(HMAC-SHA256(k,?a=1&b=2))'}") |}
            (VObject {[ "signature" := VString "base64(HMAC-SHA256(k,?a=1&b=2))" ]})
            eq_refl eq_refl eq_refl eq_refl _); discriminate.
Defined.

Lemma client_sign_rejection_witness :
  responds
    (λ _, Normal {| status := 400; response_headers := ∅;
                    text := Normal (dq "{'error':'Missing url in MoonPay signature payload.'}") |})
    (App.signMoonPayUrl ClientSample.runtime ClientSample.browser "")
  = Abrupt (ErrorInstance "MoonPay signature endpoint rejected the request.").
Proof.
  refine (client_sign_rejection ClientSample.runtime ClientSample.browser
            Sample.runtime Sample.env (Sample.post "") Sample.offline
            (error_answer DevSign 400 "Missing url in MoonPay signature payload.")
            {| status := 400; response_headers := ∅;
               text := Normal (dq "{'error':'Missing url in MoonPay signature payload.'}") |}
            "" eq_refl _ eq_refl).
  discriminate.
Defined.
